(** * Scenario classification of the claim tracker

    A shallow embedding of [utils/getScenarioContent.tsx] and of the two
    helper modules it imports ([utils/formatDate], [utils/timeSlot]), of
    [utils/queryApiGateway.ts], of [pages/index.tsx] and of the [TransLine]
    component, followed by the properties of the scenario engine and of the
    code around it. *)

From Stdlib Require Import String Ascii List ZArith Bool Lia Permutation.
Import ListNotations.

Open Scope string_scope.
Open Scope list_scope.
Open Scope Z_scope.

(** ** JavaScript values as the code reads them *)

(** A string-valued JSON field.  [None] stands for [undefined] and [null]. *)
Definition JsString : Type := option string.

(** A boolean-valued JSON field ([boolean | undefined]). *)
Definition JsBool : Type := option bool.

(** Truthiness of a string field: [undefined], [null] and the empty string
    are falsy, every other string is truthy. *)
Definition truthy (v : JsString) : bool :=
  match v with
  | Some s => negb (String.eqb s "")
  | None => false
  end.

(** The two ways a string field can be falsy, and the one way it is truthy. *)
Definition absentOrEmpty (v : JsString) : Prop := v = None \/ v = Some "".

Definition hasText (v : JsString) : Prop := exists s, v = Some s /\ s <> "".

(** Truthiness of a boolean field. *)
Definition truthyFlag (v : JsBool) : bool :=
  match v with
  | Some b => b
  | None => false
  end.

(** [v === b] for a boolean literal [b]. *)
Definition strictEq (v : JsBool) (b : bool) : bool :=
  match v with
  | Some x => Bool.eqb x b
  | None => false
  end.

(** A JavaScript [Date]: its time value, [None] for an Invalid Date (NaN). *)
Definition Date : Type := option Z.

(** [a < b] on dates: both sides are converted to their time values, and every
    comparison with NaN is false. *)
Definition date_lt (a b : Date) : bool :=
  match a, b with
  | Some x, Some y => x <? y
  | _, _ => false
  end.

(** [a > b] on dates. *)
Definition date_gt (a b : Date) : bool :=
  match a, b with
  | Some x, Some y => y <? x
  | _, _ => false
  end.

(** ** utils/timeSlot *)

Module TimeSlot.

(** Modelled from the spec: the [ParsedTimeSlot] of the data model, produced
    by [utils/timeSlot.ts], whose source is missing. *)
Record TimeSlot : Type := mkTimeSlot { rangeStart : Z; rangeEnd : Z }.

Definition digitVal (c : ascii) : option Z :=
  let n := Z.of_nat (nat_of_ascii c) in
  if (48 <=? n) && (n <=? 57) then Some (n - 48) else None.

(** A number of one or two digits at the head of the text. *)
Definition readNumber (s : list ascii) : option (Z * list ascii) :=
  match s with
  | [] => None
  | c1 :: rest =>
      match digitVal c1 with
      | None => None
      | Some d1 =>
          match rest with
          | [] => Some (d1, [])
          | c2 :: rest2 =>
              match digitVal c2 with
              | Some d2 => Some (10 * d1 + d2, rest2)
              | None => Some (d1, rest)
              end
          end
      end
  end.

(** The separator: a hyphen, an en dash (U+2013) or an em dash (U+2014); the
    dashes are read in their UTF-8 encoding, E2 80 93 and E2 80 94. *)
Definition readSeparator (s : list ascii) : option (list ascii) :=
  match s with
  | c :: rest =>
      if Nat.eqb (nat_of_ascii c) 45 then Some rest
      else
        match rest with
        | c2 :: c3 :: rest3 =>
            if Nat.eqb (nat_of_ascii c) 226 && Nat.eqb (nat_of_ascii c2) 128
               && (Nat.eqb (nat_of_ascii c3) 147 || Nat.eqb (nat_of_ascii c3) 148)
            then Some rest3
            else None
        | _ => None
        end
  | [] => None
  end.

Definition isSpace (c : ascii) : bool :=
  let n := nat_of_ascii c in
  Nat.eqb n 32 || Nat.eqb n 9 || Nat.eqb n 10 || Nat.eqb n 13.

Fixpoint dropSpaces (s : list ascii) : list ascii :=
  match s with
  | c :: rest => if isSpace c then dropSpaces rest else s
  | [] => []
  end.

Definition trim (s : list ascii) : list ascii :=
  rev (dropSpaces (rev (dropSpaces s))).

Definition hourInRange (h : Z) : bool := (1 <=? h) && (h <=? 12).

(** Modelled from the spec: [parseTimeSlot] of [utils/timeSlot.ts].  The text
    has the exact shape number, separator, number, each number of one or two
    digits and between 1 and 12, with whitespace allowed around the whole but
    not inside; every other text is a parse failure. *)
Definition parseTimeSlot (text : string) : option TimeSlot :=
  match readNumber (trim (list_ascii_of_string text)) with
  | None => None
  | Some (a, rest) =>
      match readSeparator rest with
      | None => None
      | Some rest' =>
          match readNumber rest' with
          | Some (b, []) =>
              if hourInRange a && hourInRange b then Some (mkTimeSlot a b)
              else None
          | _ => None
          end
      end
  end.

(** Modelled from the spec: hours 8 to 12 signify the morning, hours 1 to 7
    the afternoon. *)
Definition isAm (hour : Z) : bool := 8 <=? hour.

(** Modelled from the spec: [samePeriod] of [utils/timeSlot.ts]. *)
Definition samePeriod (first second : Z) : bool :=
  Bool.eqb (isAm first) (isAm second).

(** Modelled from the spec: the decision of [isFirstTimeSlotEarlier] once
    both texts have been handed to [parseTimeSlot].  [None] is the absent
    (null) result. *)
Definition compareParsed (first second : option TimeSlot) : option bool :=
  match first, second with
  | None, None => None
  | None, Some _ => Some false
  | Some _, None => Some true
  | Some a, Some b =>
      if samePeriod (rangeStart a) (rangeStart b)
      then Some (rangeStart a <? rangeStart b)
      else Some (isAm (rangeStart a))
  end.

(** Modelled from the spec: [isFirstTimeSlotEarlier] of [utils/timeSlot.ts]. *)
Definition isFirstTimeSlotEarlier (first second : string) : option bool :=
  compareParsed (parseTimeSlot first) (parseTimeSlot second).

(** The same comparison on the [timeSlotDesc] field of a record, where the
    field may be missing: a missing description does not parse. *)
Definition parseField (v : JsString) : option TimeSlot :=
  match v with
  | Some s => parseTimeSlot s
  | None => None
  end.

Definition isFirstTimeSlotEarlierField (first second : JsString) : option bool :=
  compareParsed (parseField first) (parseField second).

(** Position of an hour in the working day: 8, ..., 12, then 1, ..., 7. *)
Definition dayOrder (hour : Z) : Z :=
  if isAm hour then hour else hour + 12.

(** Position of a time-slot description in the working day; a description
    that does not parse comes after all those that do. *)
Definition fieldOrder (v : JsString) : Z :=
  match parseField v with
  | Some slot => dayOrder (rangeStart slot)
  | None => 20
  end.

End TimeSlot.

(** ** utils/formatDate *)

Module FormatDate.

Fixpoint readDigits (n : nat) (acc : Z) (s : list ascii) : option (Z * list ascii) :=
  match n with
  | O => Some (acc, s)
  | S n' =>
      match s with
      | [] => None
      | c :: rest =>
          match TimeSlot.digitVal c with
          | Some d => readDigits n' (10 * acc + d) rest
          | None => None
          end
      end
  end.

Definition expect (c : ascii) (s : list ascii) : option (list ascii) :=
  match s with
  | c' :: rest => if Ascii.eqb c c' then Some rest else None
  | [] => None
  end.

Definition isLeapYear (y : Z) : bool :=
  (y mod 4 =? 0) && (negb (y mod 100 =? 0) || (y mod 400 =? 0)).

Definition daysInMonth (y m : Z) : Z :=
  if m =? 2 then (if isLeapYear y then 29 else 28)
  else if (m =? 4) || (m =? 6) || (m =? 9) || (m =? 11) then 30
  else 31.

(** Days between 1970-01-01 and the given day of the proleptic Gregorian
    calendar. *)
Definition daysFromCivil (y m d : Z) : Z :=
  let y' := if m <=? 2 then y - 1 else y in
  let era := y' / 400 in
  let yoe := y' - era * 400 in
  let mp := (m + 9) mod 12 in
  let doy := (153 * mp + 2) / 5 + d - 1 in
  let doe := yoe * 365 + yoe / 4 - yoe / 100 + doy in
  era * 146097 + doe - 719468.

Definition secondsPerDay : Z := 86400.

(** The time of day after the date: nothing, or [THH:mm:ss]. *)
Definition readTimeOfDay (s : list ascii) : option Z :=
  match s with
  | [] => Some 0
  | _ =>
      match expect "T"%char s with
      | None => None
      | Some s1 =>
          match readDigits 2 0 s1 with
          | None => None
          | Some (hh, s2) =>
              match expect ":"%char s2 with
              | None => None
              | Some s3 =>
                  match readDigits 2 0 s3 with
                  | None => None
                  | Some (mm, s4) =>
                      match expect ":"%char s4 with
                      | None => None
                      | Some s5 =>
                          match readDigits 2 0 s5 with
                          | Some (ss, []) =>
                              if (hh <=? 23) && (mm <=? 59) && (ss <=? 59)
                              then Some (hh * 3600 + mm * 60 + ss)
                              else None
                          | _ => None
                          end
                      end
                  end
              end
          end
      end
  end.

(** Modelled from the spec: the parser behind [isValidDate] and
    [parseConvertDate] of [utils/formatDate.ts], whose source is missing.  It reads the API gateway's format [yyyy-MM-ddTHH:mm:ss] (the time
    of day may be left out) and yields the seconds since 1970-01-01T00:00:00
    of that wall-clock time; every other text is unparseable. *)
Definition parseDate (text : string) : option Z :=
  match readDigits 4 0 (list_ascii_of_string text) with
  | None => None
  | Some (y, s1) =>
      match expect "-"%char s1 with
      | None => None
      | Some s2 =>
          match readDigits 2 0 s2 with
          | None => None
          | Some (m, s3) =>
              match expect "-"%char s3 with
              | None => None
              | Some s4 =>
                  match readDigits 2 0 s4 with
                  | None => None
                  | Some (d, s5) =>
                      if (1 <=? m) && (m <=? 12) && (1 <=? d) && (d <=? daysInMonth y m)
                      then
                        match readTimeOfDay s5 with
                        | Some t => Some (daysFromCivil y m d * secondsPerDay + t)
                        | None => None
                        end
                      else None
                  end
              end
          end
      end
  end.

(** Modelled from the spec: the fixed minimum threshold date, 2013-01-01. *)
Definition minDate : Z := daysFromCivil 2013 1 1 * secondsPerDay.

(** Modelled from the spec: [isValidDate] of [utils/formatDate.ts]: false
    when the text is unparseable or the parsed date is earlier than the
    minimum date, true otherwise. *)
Definition isValidDate (text : string) : bool :=
  match parseDate text with
  | None => false
  | Some t => negb (t <? minDate)
  end.

(** Modelled from the spec: [parseConvertDate] of [utils/formatDate.ts], the
    [Date] of a text; an unparseable text gives an Invalid Date. *)
Definition parseConvertDate (text : string) : Date := parseDate text.

(** Modelled from the spec: [isDatePast] of [utils/formatDate.ts].  The
    calendar day of the date is compared with the calendar day of [now]; only a
    strictly earlier day is past. *)
Definition isDatePast (now : Z) (date : Date) : bool :=
  match date with
  | Some t => t / secondsPerDay <? now / secondsPerDay
  | None => false
  end.

(** The two text functions on a field that may be missing: a missing
    [scheduleDate] is unparseable. *)
Definition isValidDateField (v : JsString) : bool :=
  match v with
  | Some s => isValidDate s
  | None => false
  end.

Definition parseConvertDateField (v : JsString) : Date :=
  match v with
  | Some s => parseConvertDate s
  | None => None
  end.

End FormatDate.

(** ** utils/getScenarioContent: data *)

(** The [ScenarioType] enum.  It is a numeric enum: [Scenario1] is 0, ...,
    [Scenario6] is 5. *)
Inductive ScenarioType : Type :=
| Scenario1 | Scenario2 | Scenario3 | Scenario4 | Scenario5 | Scenario6.

Definition scenarioValue (s : ScenarioType) : Z :=
  match s with
  | Scenario1 => 0 | Scenario2 => 1 | Scenario3 => 2
  | Scenario4 => 3 | Scenario5 => 4 | Scenario6 => 5
  end.

Definition ScenarioTypeNames (s : ScenarioType) : string :=
  match s with
  | Scenario1 => "Determination interview: not yet scheduled"
  | Scenario2 => "Determination interview: scheduled"
  | Scenario3 => "Determination interview: awaiting decision"
  | Scenario4 => "Generic pending state: pending weeks"
  | Scenario5 => "Base state: no pending weeks, no weeks to certify"
  | Scenario6 => "Base state: no pending weeks, weeks to certify"
  end.

(** The fields of a [PendingDetermination] that the scenario code reads.  The
    interface is declared in [types/common]; every field may be missing in the
    API gateway's response. *)
Record PendingDetermination : Type := mkPendingDetermination {
  determinationStatus : JsString;
  scheduleDate : JsString;
  requestDate : JsString;
  timeSlotDesc : JsString
}.

(** [interface PendingDeterminationScenario]: the optional field is [None]
    when the object literal leaves it out. *)
Record PendingDeterminationScenario : Type := mkScenario {
  scenarioType : ScenarioType;
  pendingDetermination : option PendingDetermination
}.

(** The fields of a [Claim] that the scenario code reads; [Details] is the
    type of the nested [claimDetails] object.  The projections live in their
    own module because [pendingDetermination] also names the field of
    [PendingDeterminationScenario]. *)
Module Claim.
Record t (Details : Type) : Type := mk {
  pendingDetermination : option (list PendingDetermination);
  hasPendingWeeks : JsBool;
  hasCertificationWeeksAvailable : JsBool;
  claimDetails : option Details
}.
Arguments mk {Details} _ _ _ _.
Arguments pendingDetermination {Details} _.
Arguments hasPendingWeeks {Details} _.
Arguments hasCertificationWeeksAvailable {Details} _.
Arguments claimDetails {Details} _.
End Claim.

(** The outcome of a call that may [throw]. *)
Inductive Outcome (A : Type) : Type :=
| Returned (value : A)
| Thrown (message : string).
Arguments Returned {A} _.
Arguments Thrown {A} _.

Record ScenarioContent (Status Details : Type) : Type := mkScenarioContent {
  statusContent : Status;
  detailsContent : Details
}.
Arguments mkScenarioContent {Status Details} _ _.
Arguments statusContent {Status Details} _.
Arguments detailsContent {Status Details} _.

Definition NonPendingDeterminationValues : list string :=
  ["Canceled"; "Complete"; "TRAN"; "INVL"; "IDNC"; "1277"; "OTHR"; "ClmCX"].

(** [Array.prototype.includes] on an array of strings. *)
Definition includes (values : list string) (s : string) : bool :=
  existsb (String.eqb s) values.

(** [Array.prototype.includes] on an array of scenario numbers. *)
Definition includesScenario (values : list ScenarioType) (s : ScenarioType) : bool :=
  existsb (fun v => scenarioValue v =? scenarioValue s) values.

(** The variables of the loop of [identifyPendingDeterminationScenario]. *)
Record LoopState : Type := mkLoopState {
  earliestScheduled : option PendingDetermination;
  hasAwaitingDecision : bool;
  hasNotYetScheduled : bool
}.

Definition initialState : LoopState := mkLoopState None false false.

(** The four ways a record can count in the loop; the names are the spec's. *)
Inductive Category : Type :=
| PENDING_SCHEDULED
| PENDING_AWAITING_DECISION
| NOT_YET_SCHEDULED
| IGNORED.

Definition Category_eqb (a b : Category) : bool :=
  match a, b with
  | PENDING_SCHEDULED, PENDING_SCHEDULED
  | PENDING_AWAITING_DECISION, PENDING_AWAITING_DECISION
  | NOT_YET_SCHEDULED, NOT_YET_SCHEDULED
  | IGNORED, IGNORED => true
  | _, _ => false
  end.

(** ** utils/getScenarioContent: imports *)

(** What the file imports from [./formatDate] and [./timeSlot].  The
    arguments are record fields and may be missing.  [isDatePast] reads the
    clock; an instance fixes the current time. *)
Class DateTimeImports : Type := {
  isValidDate : JsString -> bool;
  parseConvertDate : JsString -> Date;
  isDatePast : Date -> bool;
  isFirstTimeSlotEarlier : JsString -> JsString -> option bool
}.

(** What the file imports from [./getClaimStatus], [./getClaimDetails] and
    [../types/common]. *)
Class ContentImports : Type := {
  ClaimDetailsResult : Type;
  ClaimDetailsContent : Type;
  ClaimStatusContent : Type;
  getClaimStatus : ScenarioType -> bool -> ClaimStatusContent;
  getClaimDetails : ClaimDetailsResult -> ClaimDetailsContent
}.

(** ** utils/getScenarioContent: code *)

Section GetScenarioContent.

Context {dateTime : DateTimeImports} {content : ContentImports}.

Definition isDeterminationStatusPending (pendingDetermination : PendingDetermination) : bool :=
  negb (truthy (determinationStatus pendingDetermination))
  || match determinationStatus pendingDetermination with
     | Some status => negb (includes NonPendingDeterminationValues status)
     | None => true
     end.

Definition isScheduledStrictlyBefore (first second : PendingDetermination) : bool :=
  let firstScheduleDate := parseConvertDate (scheduleDate first) in
  let secondScheduleDate := parseConvertDate (scheduleDate second) in
  if date_lt firstScheduleDate secondScheduleDate then true
  else if date_gt firstScheduleDate secondScheduleDate then false
  else
    let isEarlier := isFirstTimeSlotEarlier (timeSlotDesc first) (timeSlotDesc second) in
    if negb (truthyFlag isEarlier) then false
    else truthyFlag isEarlier.

(** One turn of the [for ... of] loop. *)
Definition loopBody (st : LoopState) (pendingDetermination : PendingDetermination) : LoopState :=
  if isDeterminationStatusPending pendingDetermination
     && isValidDate (scheduleDate pendingDetermination)
  then
    if negb (isDatePast (parseConvertDate (scheduleDate pendingDetermination)))
    then
      if match earliestScheduled st with
         | None => true
         | Some earliest => isScheduledStrictlyBefore pendingDetermination earliest
         end
      then mkLoopState (Some pendingDetermination) (hasAwaitingDecision st) (hasNotYetScheduled st)
      else st
    else mkLoopState (earliestScheduled st) true (hasNotYetScheduled st)
  else if negb (truthy (determinationStatus pendingDetermination))
          && negb (truthy (scheduleDate pendingDetermination))
          && truthy (requestDate pendingDetermination)
  then mkLoopState (earliestScheduled st) (hasAwaitingDecision st) true
  else st.

Definition runLoop (pendingDeterminations : list PendingDetermination) : LoopState :=
  fold_left loopBody pendingDeterminations initialState.

Definition identifyPendingDeterminationScenario
  (pendingDeterminations : list PendingDetermination) : option PendingDeterminationScenario :=
  let st := runLoop pendingDeterminations in
  match earliestScheduled st with
  | Some earliest => Some (mkScenario Scenario2 (Some earliest))
  | None =>
      if hasAwaitingDecision st then Some (mkScenario Scenario3 None)
      else if hasNotYetScheduled st then Some (mkScenario Scenario1 None)
      else None
  end.

Local Abbreviation Claim := (Claim.t ClaimDetailsResult).

(** The part of [getScenario] after the pending determination scenarios. *)
Definition remainingScenario (claimData : Claim) : PendingDeterminationScenario :=
  if strictEq (Claim.hasPendingWeeks claimData) true
  then mkScenario Scenario4 None
  else if strictEq (Claim.hasCertificationWeeksAvailable claimData) false
  then mkScenario Scenario5 None
  else mkScenario Scenario6 None.

Definition getScenario (claimData : Claim) : PendingDeterminationScenario :=
  match Claim.pendingDetermination claimData with
  | Some pendingDeterminations =>
      if (0 <? Z.of_nat (length pendingDeterminations))
      then
        match identifyPendingDeterminationScenario pendingDeterminations with
        | Some pendingDeterminationScenario => pendingDeterminationScenario
        | None => remainingScenario claimData
        end
      else remainingScenario claimData
  | None => remainingScenario claimData
  end.

Definition continueCertifying (scenarioType : ScenarioType) (claimData : Claim) : bool :=
  let isIgnoredScenario := includesScenario [Scenario5; Scenario6] scenarioType in
  if negb isIgnoredScenario && truthyFlag (Claim.hasCertificationWeeksAvailable claimData)
  then true
  else false.

Definition getScenarioContent (claimData : Claim)
  : Outcome (ScenarioContent ClaimStatusContent ClaimDetailsContent) :=
  let scenarioTypeObject := getScenario claimData in
  let scenarioType := scenarioType scenarioTypeObject in
  let statusContent := getClaimStatus scenarioType (continueCertifying scenarioType claimData) in
  match Claim.claimDetails claimData with
  | None => Thrown "Missing claim details"
  | Some claimDetails =>
      let detailsContent := getClaimDetails claimDetails in
      Returned (mkScenarioContent statusContent detailsContent)
  end.

(** *** The loop, read record by record *)

(** The category of one record: the branch of the loop body that it takes,
    with the conditions of the source. *)
Definition classify (pd : PendingDetermination) : Category :=
  if isDeterminationStatusPending pd && isValidDate (scheduleDate pd)
  then
    if isDatePast (parseConvertDate (scheduleDate pd))
    then PENDING_AWAITING_DECISION
    else PENDING_SCHEDULED
  else if negb (truthy (determinationStatus pd))
          && negb (truthy (scheduleDate pd))
          && truthy (requestDate pd)
  then NOT_YET_SCHEDULED
  else IGNORED.

Definition hasCategory (c : Category) (pds : list PendingDetermination) : bool :=
  existsb (fun pd => Category_eqb (classify pd) c) pds.

(** The scheduled records of the input, in input order. *)
Definition scheduledRecords (pds : list PendingDetermination) : list PendingDetermination :=
  filter (fun pd => Category_eqb (classify pd) PENDING_SCHEDULED) pds.

(** The selection among the scheduled records: the candidate replaces the
    earliest found so far only when it is strictly before it. *)
Fixpoint earliestFrom (best : PendingDetermination) (rest : list PendingDetermination)
  : PendingDetermination :=
  match rest with
  | [] => best
  | pd :: rest' =>
      earliestFrom (if isScheduledStrictlyBefore pd best then pd else best) rest'
  end.

Definition earliestIn (records : list PendingDetermination) : option PendingDetermination :=
  match records with
  | [] => None
  | first :: rest => Some (earliestFrom first rest)
  end.

Definition earliestOf (pds : list PendingDetermination) : option PendingDetermination :=
  earliestIn (scheduledRecords pds).

(** The parsed schedule date of a record. *)
Definition dateOf (pd : PendingDetermination) : Date :=
  parseConvertDate (scheduleDate pd).

(** The category as the spec words it, where absent means that the field is
    missing and present that it is there, whatever the text. *)
Definition isAbsent (v : JsString) : bool :=
  match v with
  | None => true
  | Some _ => false
  end.

Definition specCategory (pd : PendingDetermination) : Category :=
  if isDeterminationStatusPending pd && isValidDate (scheduleDate pd)
  then
    if isDatePast (parseConvertDate (scheduleDate pd))
    then PENDING_AWAITING_DECISION
    else PENDING_SCHEDULED
  else if isAbsent (determinationStatus pd)
          && isAbsent (scheduleDate pd)
          && negb (isAbsent (requestDate pd))
  then NOT_YET_SCHEDULED
  else IGNORED.

End GetScenarioContent.

(** ** The imports as the spec describes them *)

(** The date and time-slot helpers of the spec, with the clock fixed at
    [now] (seconds since 1970-01-01T00:00:00, wall-clock time). *)
Definition specDateTime (now : Z) : DateTimeImports := {|
  isValidDate := FormatDate.isValidDateField;
  parseConvertDate := FormatDate.parseConvertDateField;
  isDatePast := FormatDate.isDatePast now;
  isFirstTimeSlotEarlier := TimeSlot.isFirstTimeSlotEarlierField
|}.

(** A stand-in for the content builders: the status content records the
    arguments of [getClaimStatus], the details content is the program type. *)
Definition plainContent : ContentImports := {|
  ClaimDetailsResult := string;
  ClaimDetailsContent := string;
  ClaimStatusContent := ScenarioType * bool;
  getClaimStatus := fun scenarioType continueCertifying => (scenarioType, continueCertifying);
  getClaimDetails := fun claimDetails => claimDetails
|}.

(** With the helpers of the spec, [first] has the earlier schedule: the earlier
    date or, on the same date, the earlier place of the time slot. *)
Definition earlierSchedule (first second : PendingDetermination) : Prop :=
  exists t1 t2,
    FormatDate.parseConvertDateField (scheduleDate first) = Some t1
    /\ FormatDate.parseConvertDateField (scheduleDate second) = Some t2
    /\ (t1 < t2
        \/ (t1 = t2
            /\ TimeSlot.fieldOrder (timeSlotDesc first)
               < TimeSlot.fieldOrder (timeSlotDesc second))).

(** ** Sample data *)

(** 2021-05-05T00:00:00, the date the tests set the clock to. *)
Definition sampleNow : Z := FormatDate.daysFromCivil 2021 5 5 * FormatDate.secondsPerDay.

Definition sampleImports : DateTimeImports := specDateTime sampleNow.

Definition scheduledJune1Afternoon : PendingDetermination :=
  mkPendingDetermination None (Some "2021-06-01T00:00:00") (Some "2021-04-20T00:00:00") (Some "1-3").

Definition scheduledJune1Morning : PendingDetermination :=
  mkPendingDetermination (Some "") (Some "2021-06-01T00:00:00") (Some "2021-04-21T00:00:00") (Some "10-12").

Definition scheduledJune1NoSlot : PendingDetermination :=
  mkPendingDetermination None (Some "2021-06-01T00:00:00") None None.

Definition scheduledMay20 : PendingDetermination :=
  mkPendingDetermination (Some "Pending") (Some "2021-05-20T00:00:00") None (Some "3-5").

Definition interviewedApril1 : PendingDetermination :=
  mkPendingDetermination None (Some "2021-04-01T00:00:00") None (Some "8-10").

Definition requestedOnly : PendingDetermination :=
  mkPendingDetermination None None (Some "2021-04-20T00:00:00") None.

Definition canceledJune1 : PendingDetermination :=
  mkPendingDetermination (Some "Canceled") (Some "2021-06-01T00:00:00") None (Some "8-10").

Definition placeholderDate : PendingDetermination :=
  mkPendingDetermination None (Some "0001-01-01T00:00:00") None None.

(** The status is the empty string; there is no schedule date. *)
Definition emptyStatusRequested : PendingDetermination :=
  mkPendingDetermination (Some "") None (Some "2021-04-20T00:00:00") None.

(** The request date is there, and is the empty string. *)
Definition emptyRequestDate : PendingDetermination :=
  mkPendingDetermination None None (Some "") None.

Definition sampleClaim (pds : option (list PendingDetermination))
  (pendingWeeks certificationWeeks : JsBool) (details : option string) : Claim.t string :=
  Claim.mk pds pendingWeeks certificationWeeks details.

(** Texts of the time-slot tests; the dashes are written byte by byte. *)
Definition enDash : string :=
  String (ascii_of_nat 226) (String (ascii_of_nat 128) (String (ascii_of_nat 147) "")).

Definition emDash : string :=
  String (ascii_of_nat 226) (String (ascii_of_nat 128) (String (ascii_of_nat 148) "")).

(** ** utils/queryApiGateway: environment and logging *)

(** [process.env]: a variable holds a string or is not set. *)
Definition Env : Type := string -> option string.

(** [v ?? ''] on an environment variable. *)
Definition orEmpty (v : option string) : string :=
  match v with
  | Some s => s
  | None => ""
  end.

(** Truthiness of a string. *)
Definition nonEmpty (s : string) : bool := negb (String.eqb s "").

(** [s.replace(/\/$/, '')]: without the [m] flag [$] is the end of the
    input, so the one match there can be is the last character. *)
Fixpoint removeTrailingSlash (s : string) : string :=
  match s with
  | EmptyString => EmptyString
  | String c rest =>
      match rest with
      | EmptyString => if Ascii.eqb c "/"%char then EmptyString else s
      | String _ _ => String c (removeTrailingSlash rest)
      end
  end.

(** The result of a call that may throw a value of type [E]. *)
Inductive Result (E A : Type) : Type :=
| Ok (value : A)
| Throw (error : E).
Arguments Ok {E A} _.
Arguments Throw {E A} _.

(** The object handed to [logger.log]: the list of missing variables, an
    error, or some other object (the request, the claim data, the content,
    the empty object). *)
Inductive LogObject (E : Type) : Type :=
| MissingEnvVars (missingEnvVars : list string)
| ErrorObject (error : E)
| OtherObject.
Arguments MissingEnvVars {E} _.
Arguments ErrorObject {E} _.
Arguments OtherObject {E}.

(** One call of [logger.log]: its level, object and message. *)
Record LogCall (E : Type) : Type := mkLogCall {
  logLevel : string;
  logObject : LogObject E;
  logMessage : string
}.
Arguments mkLogCall {E} _ _ _.
Arguments logLevel {E} _.
Arguments logObject {E} _.
Arguments logMessage {E} _.

Record ApiEnvVars : Type := mkApiEnvVars {
  idHeaderName : string;
  apiUrl : string;
  apiUserKey : string;
  pfxPath : string;
  pfxPassphrase : string
}.

Record QueryParams : Type := mkQueryParams {
  user_key : string;
  uniqueNumber : string
}.

Record AgentOptions : Type := mkAgentOptions {
  pfx : string;
  keepAlive : bool;
  timeout : Z;
  freeSocketTimeout : Z;
  maxSockets : Z;
  passphrase : option string
}.

(** The response of [fetch], as far as the code reads it. *)
Record Response : Type := mkResponse {
  ok : bool;
  text : Result string string
}.

(** ** utils/queryApiGateway: JSON values *)

(** JavaScript numbers, as far as the code depends on them. *)
Class JsNumbers : Type := {
  Number : Type;
  (** neither NaN nor an infinity: [JSON.stringify] writes those as [null] *)
  numberIsFinite : Number -> bool;
  (** [JSON.parse(JSON.stringify(n))] for a finite [n] *)
  numberRoundTrip : Number -> Number;
  (** [Object.is], the comparison of numbers in [assert.deepStrictEqual] *)
  numberSameValue : Number -> Number -> bool;
  (** truthiness: false for zero and NaN *)
  numberTruthy : Number -> bool
}.

Section JsonValues.

Context {numbers : JsNumbers}.

(** What [JSON.parse] returns.  An object is the list of its properties; the
    first entry for a key is the property of that name. *)
Inductive Json : Type :=
| JNull
| JBool (b : bool)
| JNumber (n : Number)
| JString (s : string)
| JArray (items : list Json)
| JObject (properties : list (string * Json)).

Definition JsonObject : Type := list (string * Json).

(** [object[key]]; [None] is [undefined]. *)
Fixpoint getProperty (object : JsonObject) (key : string) : option Json :=
  match object with
  | [] => None
  | (k, v) :: rest => if String.eqb k key then Some v else getProperty rest key
  end.

(** [object[key] = value]: the property is overwritten where it stands, or
    added at the end. *)
Fixpoint setProperty (object : JsonObject) (key : string) (value : Json) : JsonObject :=
  match object with
  | [] => [(key, value)]
  | (k, v) :: rest =>
      if String.eqb k key then (k, value) :: rest
      else (k, v) :: setProperty rest key value
  end.

(** [Object.keys(object)]. *)
Definition objectKeys (object : JsonObject) : list string := map fst object.

(** Truthiness of a value read from an object. *)
Definition jsonTruthy (v : option Json) : bool :=
  match v with
  | None => false
  | Some JNull => false
  | Some (JBool b) => b
  | Some (JNumber n) => numberTruthy n
  | Some (JString s) => nonEmpty s
  | Some (JArray _) => true
  | Some (JObject _) => true
  end.

(** [v !== s] for a string [s]. *)
Definition notStrictEqualString (v : option Json) (s : string) : bool :=
  match v with
  | Some (JString x) => negb (String.eqb x s)
  | _ => true
  end.

(** [v === null]. *)
Definition strictEqualNull (v : option Json) : bool :=
  match v with
  | Some JNull => true
  | _ => false
  end.

(** [JSON.parse(JSON.stringify(v))], the deep copy of [reponseIsNullish]. *)
Fixpoint jsonRoundTrip (v : Json) : Json :=
  match v with
  | JNull => JNull
  | JBool b => JBool b
  | JNumber n => if numberIsFinite n then JNumber (numberRoundTrip n) else JNull
  | JString s => JString s
  | JArray items => JArray (map jsonRoundTrip items)
  | JObject properties =>
      JObject (map (fun kv => (fst kv, jsonRoundTrip (snd kv))) properties)
  end.

Definition roundTripObject (object : JsonObject) : JsonObject :=
  map (fun kv => (fst kv, jsonRoundTrip (snd kv))) object.

(** [assert.deepStrictEqual] on two values from JSON: primitives by
    [Object.is]; arrays by length and items; objects by the number of own
    keys, then, for each key of the first, the presence of the key in the
    second and the two values. *)
Fixpoint deepStrictEqual (actual expected : Json) : bool :=
  match actual, expected with
  | JNull, JNull => true
  | JBool x, JBool y => Bool.eqb x y
  | JNumber x, JNumber y => numberSameValue x y
  | JString x, JString y => String.eqb x y
  | JArray xs, JArray ys =>
      (fix items (xs ys : list Json) : bool :=
         match xs, ys with
         | [], [] => true
         | x :: xs', y :: ys' => deepStrictEqual x y && items xs' ys'
         | _, _ => false
         end) xs ys
  | JObject xs, JObject ys =>
      Nat.eqb (length xs) (length ys)
      && (fix properties (xs : list (string * Json)) : bool :=
            match xs with
            | [] => true
            | (k, x) :: xs' =>
                match getProperty ys k with
                | Some y => deepStrictEqual x y
                | None => false
                end && properties xs'
            end) xs
  | _, _ => false
  end.

(** The comparison of the properties of [actual] with those of [expected],
    as in [deepStrictEqual]. *)
Fixpoint propertiesMatch (expected actual : list (string * Json)) : bool :=
  match actual with
  | [] => true
  | (k, x) :: rest =>
      match getProperty expected k with
      | Some y => deepStrictEqual x y
      | None => false
      end && propertiesMatch expected rest
  end.

(** The keys of the null-ish responses. *)
Definition nullishKeys : list string :=
  ["claimDetails"; "uniqueNumber"; "hasCertificationWeeksAvailable";
   "hasValidPendingWeeks"; "isBYE"; "pendingDetermination"].

(** The [claimDetails] of the three null-ish responses. *)
Definition nullishClaimDetails : Json :=
  JObject [("programType", JString "");
           ("benefitYearStartDate", JNull);
           ("benefitYearEndDate", JNull);
           ("claimBalance", JNull);
           ("weeklyBenefitAmount", JNull);
           ("lastPaymentIssued", JNull);
           ("lastPaymentAmount", JNull);
           ("monetaryStatus", JString "")].

Definition nullishResponseTmp1 : Json :=
  JObject [("claimDetails", nullishClaimDetails);
           ("uniqueNumber", JNull);
           ("hasCertificationWeeksAvailable", JBool false);
           ("hasValidPendingWeeks", JBool false);
           ("isBYE", JBool false);
           ("pendingDetermination", JArray [])].

Definition nullishResponseTmp2 : Json :=
  JObject [("claimDetails", nullishClaimDetails);
           ("uniqueNumber", JNull);
           ("hasCertificationWeeksAvailable", JBool false);
           ("isBYE", JBool false);
           ("pendingDetermination", JArray [])].

Definition nullishResponse : Json :=
  JObject [("claimDetails", nullishClaimDetails);
           ("uniqueNumber", JNull);
           ("hasCertificationWeeksAvailable", JBool false);
           ("hasValidPendingWeeks", JBool false);
           ("isBYE", JBool false);
           ("pendingDetermination", JArray [])].

(** [reponseIsNullish]; the argument is the response body, an object.  Each
    assertion of the [try] block throws when its two arguments are equal, and
    the [catch] turns any throw into [true]. *)
Definition reponseIsNullish (apiBody : JsonObject) : bool :=
  let response := roundTripObject apiBody in
  let responseUniqueNumber := getProperty response "uniqueNumber" in
  let response := setProperty response "uniqueNumber" JNull in
  if strictEqualNull responseUniqueNumber then true
  else if deepStrictEqual (JObject response) nullishResponse then true
  else if deepStrictEqual (JObject response) nullishResponseTmp1 then true
  else if deepStrictEqual (JObject response) nullishResponseTmp2 then true
  else false.

(** The errors that [queryApiGateway] throws: what a library call threw, or
    one of the four [Error]s it builds, each with the values its message is
    made of. *)
Inductive ApiError : Type :=
| LibraryError (thrown : string)
| Not200Error
| NullError (queried : string)
| MismatchError (returned : option Json) (queried : string)
| NullResponseError (queried : string) (returned : option Json).

(** [value || 'null'] inside a message: the value when it is truthy. *)
Definition orNullText (v : option Json) : option Json :=
  if jsonTruthy v then v else None.

End JsonValues.

(** ** utils/queryApiGateway: code *)

(** The library calls of the file: [path.join], [String.prototype.toLowerCase],
    [fs.readFileSync], the [URL] class, [fetch] and [JSON.parse].  The parsed
    body is [null] ([None]) or an object, as the cast to [Claim] says. *)
Class ApiImports {numbers : JsNumbers} : Type := {
  pathJoin : string -> string -> string;
  toLowerCase : string -> string;
  readFileSync : string -> Result string string;
  URL : Type;
  newURL : string -> Result string URL;
  searchParamsAppend : URL -> string -> string -> URL;
  urlToString : URL -> string;
  fetch : string -> AgentOptions -> Result string Response;
  jsonParse : string -> Result string (option JsonObject)
}.

Section QueryApiGateway.

Context {numbers : JsNumbers} {api : ApiImports}.

Definition requiredKeyMissing (entry : string * string) : bool :=
  negb (nonEmpty (snd entry)) && negb (String.eqb (fst entry) "pfxPassphrase").

(** [getApiVars]: the variables, and the calls of [logger.log]. *)
Definition getApiVars {E : Type} (env : Env) : ApiEnvVars * list (LogCall E) :=
  let idHeaderName := orEmpty (env "ID_HEADER_NAME") in
  let apiUrl := removeTrailingSlash (orEmpty (env "API_URL")) in
  let apiUserKey := orEmpty (env "API_USER_KEY") in
  let certDir := orEmpty (env "CERTIFICATE_DIR") in
  let pfxFilename := orEmpty (env "PFX_FILE") in
  let pfxPath := if nonEmpty certDir && nonEmpty pfxFilename
                 then pathJoin certDir pfxFilename
                 else "" in
  let pfxPassphrase := if nonEmpty (orEmpty (env "PFX_PASSPHRASE"))
                       then orEmpty (env "PFX_PASSPHRASE")
                       else "" in
  let apiEnvVars := mkApiEnvVars idHeaderName apiUrl apiUserKey pfxPath pfxPassphrase in
  let missingEnvVars :=
    map fst
      (filter requiredKeyMissing
         [("idHeaderName", idHeaderName); ("apiUrl", apiUrl);
          ("apiUserKey", apiUserKey); ("pfxPath", pfxPath);
          ("pfxPassphrase", pfxPassphrase)]) in
  (apiEnvVars,
   if (0 <? Z.of_nat (length missingEnvVars))
   then [mkLogCall "error" (MissingEnvVars missingEnvVars)
           "Missing required environment variable(s)"]
   else []).

Definition buildApiUrl (url : string) (queryParams : QueryParams) : Result string string :=
  match newURL url with
  | Throw error => Throw error
  | Ok apiUrl =>
      let apiUrl := searchParamsAppend apiUrl "user_key" (user_key queryParams) in
      let apiUrl := searchParamsAppend apiUrl "uniqueNumber" (uniqueNumber queryParams) in
      Ok (urlToString apiUrl)
  end.

Definition extractJSON (responseBody : string) : Result string (option JsonObject) :=
  jsonParse responseBody.

(** [getUniqueNumber]: the request is its [headers]; the result also carries
    the calls of [logger.log] made by [getApiVars]. *)
Definition getUniqueNumber {E : Type} (env : Env) (headers : string -> JsString)
  : JsString * list (LogCall E) :=
  let '(apiEnvVars, logs) := getApiVars env in
  (headers (toLowerCase (idHeaderName apiEnvVars)), logs).

(** The first [try] block after the certificate is read: the request. *)
Definition fetchApiData (apiUrl : string) (options : AgentOptions)
  : Result ApiError (option JsonObject) :=
  match fetch apiUrl options with
  | Throw error => Throw (LibraryError error)
  | Ok response =>
      if ok response
      then
        match text response with
        | Throw error => Throw (LibraryError error)
        | Ok responseBody =>
            match extractJSON responseBody with
            | Throw error => Throw (LibraryError error)
            | Ok apiData => Ok apiData
            end
        end
      else Throw Not200Error
  end.

(** The chain of checks at the end of [queryApiGateway]: the error to throw,
    or the data to return. *)
Definition checkApiData (apiData : option JsonObject) (uniqueNumber : string)
  : Result ApiError JsonObject :=
  match apiData with
  | None => Throw (NullError uniqueNumber)
  | Some apiData =>
      if jsonTruthy (getProperty apiData "uniqueNumber")
         && notStrictEqualString (getProperty apiData "uniqueNumber") uniqueNumber
      then Throw (MismatchError (orNullText (getProperty apiData "uniqueNumber")) uniqueNumber)
      else if reponseIsNullish apiData
      then Throw (NullResponseError uniqueNumber
                    (orNullText (getProperty apiData "uniqueNumber")))
      else Ok apiData
  end.

(** [queryApiGateway]: the calls of [logger.log] in order, and the claim data
    or the error thrown. *)
Definition queryApiGateway (env : Env) (uniqueNumber : string)
  : list (LogCall ApiError) * Result ApiError JsonObject :=
  let '(apiEnvVars, logs) := getApiVars env in
  match readFileSync (pfxPath apiEnvVars) with
  | Throw error =>
      (logs ++ [mkLogCall "error" (ErrorObject (LibraryError error))
                  "Read certificate error"],
       Throw (LibraryError error))
  | Ok pfx =>
      let options :=
        mkAgentOptions pfx true (60 * 1000) (30 * 1000) 50
          (if nonEmpty (pfxPassphrase apiEnvVars)
           then Some (pfxPassphrase apiEnvVars)
           else None) in
      let apiUrlParams := mkQueryParams (apiUserKey apiEnvVars) uniqueNumber in
      match buildApiUrl (apiUrl apiEnvVars) apiUrlParams with
      | Throw error => (logs, Throw (LibraryError error))
      | Ok apiUrl =>
          match fetchApiData apiUrl options with
          | Throw error =>
              (logs ++ [mkLogCall "error" (ErrorObject error) "API gateway error"],
               Throw error)
          | Ok apiData =>
              match checkApiData apiData uniqueNumber with
              | Throw error =>
                  (logs ++ [mkLogCall "error" (ErrorObject error)
                              "Unexpected API gateway response"],
                   Throw error)
              | Ok apiData => (logs, Ok apiData)
              end
          end
      end
  end.

End QueryApiGateway.

(** ** Sample data for the API gateway *)

(** Numbers as integers: every one is finite and is its own copy. *)
Definition sampleNumbers : JsNumbers := {|
  Number := Z;
  numberIsFinite := fun _ => true;
  numberRoundTrip := fun n => n;
  numberSameValue := Z.eqb;
  numberTruthy := fun n => negb (n =? 0)
|}.

(** A response with a claim in it. *)
Definition sampleBody : @JsonObject sampleNumbers :=
  [("claimDetails", JObject [("programType", JString "UI"); ("claimBalance", @JNumber sampleNumbers 100)]);
   ("uniqueNumber", JString "12345");
   ("hasCertificationWeeksAvailable", JBool true);
   ("hasValidPendingWeeks", JBool false);
   ("isBYE", JBool false);
   ("pendingDetermination", JArray [])].

(** The null-ish response, with a unique number in it. *)
Definition sampleNullishBody : @JsonObject sampleNumbers :=
  [("claimDetails", nullishClaimDetails);
   ("uniqueNumber", JString "12345");
   ("hasCertificationWeeksAvailable", JBool false);
   ("hasValidPendingWeeks", JBool false);
   ("isBYE", JBool false);
   ("pendingDetermination", JArray [])].

(** A gateway that answers every request with [sampleBody]. *)
Definition sampleApi : @ApiImports sampleNumbers := {|
  pathJoin := fun a b => (a ++ "/" ++ b)%string;
  toLowerCase := fun s => s;
  readFileSync := fun _ => Ok "certificate";
  URL := string;
  newURL := fun url => Ok url;
  searchParamsAppend := fun url name value => (url ++ "&" ++ name ++ "=" ++ value)%string;
  urlToString := fun url => url;
  fetch := fun _ _ => Ok (mkResponse true (Ok "body"));
  jsonParse := fun _ => Ok (Some sampleBody)
|}.

Definition sampleEnv : Env :=
  fun name =>
    if String.eqb name "ID_HEADER_NAME" then Some "uniquenumber"
    else if String.eqb name "API_URL" then Some "https://api.example/claims/"
    else if String.eqb name "API_USER_KEY" then Some "key"
    else if String.eqb name "CERTIFICATE_DIR" then Some "/certs"
    else if String.eqb name "PFX_FILE" then Some "client.pfx"
    else None.


(** ** pages/index: data *)

Record UrlPrefixes : Type := mkUrlPrefixes {
  urlPrefixUioDesktop : string;
  urlPrefixUioMobile : string;
  urlPrefixBpo : string
}.

(** The props that [getServerSideProps] hands to [Home]; [Translations] is
    what [serverSideTranslations] adds to them. *)
Record HomeProps (Content Translations : Type) : Type := mkHomeProps {
  scenarioContent : option Content;
  errorCode : option Z;
  userArrivedFromUioMobile : bool;
  assetPrefix : string;
  urlPrefixes : UrlPrefixes;
  enableGoogleAnalytics : string;
  enableMaintenancePage : string;
  translations : Translations
}.
Arguments mkHomeProps {Content Translations} _ _ _ _ _ _ _ _.
Arguments scenarioContent {Content Translations} _.
Arguments errorCode {Content Translations} _.
Arguments userArrivedFromUioMobile {Content Translations} _.
Arguments assetPrefix {Content Translations} _.
Arguments urlPrefixes {Content Translations} _.
Arguments enableGoogleAnalytics {Content Translations} _.
Arguments enableMaintenancePage {Content Translations} _.
Arguments translations {Content Translations} _.

(** What the [catch] of [getServerSideProps] can receive: an error of
    [queryApiGateway], or the [Error] of [getScenarioContent] with its
    message. *)
Inductive AppError (Q : Type) : Type :=
| QueryError (error : Q)
| ContentError (message : string).
Arguments QueryError {Q} _.
Arguments ContentError {Q} _.

(** A call of [logger.log] made below [getServerSideProps], seen from it. *)
Definition liftLogCall {Q : Type} (call : LogCall Q) : LogCall (AppError Q) :=
  mkLogCall (logLevel call)
    match logObject call with
    | MissingEnvVars names => MissingEnvVars names
    | ErrorObject error => ErrorObject (QueryError error)
    | OtherObject => OtherObject
    end
    (logMessage call).

(** What one run of [getServerSideProps] does: the props it returns, the
    [res.statusCode] it sets if it sets one, its calls of [logger.log] and what
    it writes with [console.log]. *)
Record ServerSideRun (Props E : Type) : Type := mkServerSideRun {
  props : Props;
  statusCode : option Z;
  logCalls : list (LogCall E);
  consoleLog : list string
}.
Arguments mkServerSideRun {Props E} _ _ _ _.
Arguments props {Props E} _.
Arguments statusCode {Props E} _.
Arguments logCalls {Props E} _.
Arguments consoleLog {Props E} _.

(** The main content of the page: one of the three things [Home] puts in
    [mainContent], with the props it passes on. *)
Inductive MainContent (Status Details : Type) : Type :=
| MaintenancePage
| ErrorPage (userArrivedFromUioMobile : bool)
| ClaimPage (userArrivedFromUioMobile : bool) (statusContent : Status)
    (detailsContent : Details).
Arguments MaintenancePage {Status Details}.
Arguments ErrorPage {Status Details} _.
Arguments ClaimPage {Status Details} _ _ _.

(** What [Home] renders, as far as it depends on the props: the favicon, the
    scenario sent to Google Analytics when the script is included, and the
    main content. *)
Record HomePage (Status Details : Type) : Type := mkHomePage {
  favicon : string;
  googleAnalytics : option string;
  mainContent : MainContent Status Details
}.
Arguments mkHomePage {Status Details} _ _ _.
Arguments favicon {Status Details} _.
Arguments googleAnalytics {Status Details} _.
Arguments mainContent {Status Details} _.

(** Truthiness of a number that is an integer. *)
Definition truthyCode (v : option Z) : bool :=
  match v with
  | Some n => negb (n =? 0)
  | None => false
  end.

(** ** pages/index: code *)

(** What [getServerSideProps] uses beyond the two utility files: the reading
    of the parsed body as a [Claim] (the cast in [extractJSON]) and
    [serverSideTranslations]. *)
Class PageImports {numbers : JsNumbers} {content : ContentImports} : Type := {
  asClaim : JsonObject -> Claim.t ClaimDetailsResult;
  Translations : Type;
  serverSideTranslations : string -> list string -> Translations
}.

Section Pages.

Context {numbers : JsNumbers} {api : ApiImports} {dateTime : DateTimeImports}
  {content : ContentImports} {page : PageImports}.

Local Abbreviation Content := (ScenarioContent ClaimStatusContent ClaimDetailsContent).

(** [scenarioContent?.scenarioName]: the objects that [getScenarioContent]
    builds have no such property. *)
Definition scenarioName (scenarioContent : option Content) : option string := None.

(** [Home]; it throws when it reads a property of a [scenarioContent] that is
    [null]. *)
Definition Home (homeProps : HomeProps Content Translations)
  : Outcome (HomePage ClaimStatusContent ClaimDetailsContent) :=
  let favicon := (assetPrefix homeProps ++ "/favicon.ico")%string in
  let scenarioDimension :=
    match scenarioName (scenarioContent homeProps) with
    | Some name => name
    | None => "None"
    end in
  let googleAnalytics :=
    if String.eqb (enableGoogleAnalytics homeProps) "enabled"
    then Some scenarioDimension
    else None in
  if nonEmpty (enableMaintenancePage homeProps)
  then Returned (mkHomePage favicon googleAnalytics MaintenancePage)
  else if truthyCode (errorCode homeProps)
  then Returned (mkHomePage favicon googleAnalytics (ErrorPage true))
  else
    match scenarioContent homeProps with
    | None => Thrown "TypeError"
    | Some scenarioContent =>
        Returned
          (mkHomePage favicon googleAnalytics
             (ClaimPage (userArrivedFromUioMobile homeProps)
                (statusContent scenarioContent) (detailsContent scenarioContent)))
    end.

(** [getServerSideProps]: [from] is [query.from], [headers] are the headers
    of the request, [initialized] tells whether [logger.initialize] succeeded
    or what it threw. *)
Definition getServerSideProps (env : Env) (from : JsString) (headers : string -> JsString)
  (locale : JsString) (initialized : Result string unit)
  : ServerSideRun (HomeProps Content Translations) (AppError ApiError) :=
  let userArrivedFromUioMobile :=
    match from with
    | Some text => String.eqb text "uiom"
    | None => false
    end in
  let assetPrefix :=
    match env "ASSET_PREFIX" with
    | None => "/claimstatus"
    | Some text => if String.eqb text "undefined" then "/claimstatus" else text
    end in
  let URL_PREFIXES :=
    mkUrlPrefixes (orEmpty (env "URL_PREFIX_UIO_DESKTOP"))
      (orEmpty (env "URL_PREFIX_UIO_MOBILE")) (orEmpty (env "URL_PREFIX_BPO")) in
  let ENABLE_GOOGLE_ANALYTICS := orEmpty (env "ENABLE_GOOGLE_ANALYTICS") in
  let ENABLE_MAINTENANCE_PAGE := orEmpty (env "ENABLE_MAINTENANCE_PAGE") in
  let console :=
    match initialized with
    | Ok _ => []
    | Throw error => [error]
    end in
  let requestLog := [mkLogCall "info" OtherObject "Request"] in
  let '(uniqueNumber, apiVarsLog) := getUniqueNumber env headers in
  let '(errorCode, scenarioContent, logs) :=
    if negb (truthy uniqueNumber)
    then
      (Some 500, None,
       requestLog ++ apiVarsLog
       ++ (if match headers "user-agent" with
              | Some agent => negb (String.eqb agent "Edge Health Probe")
              | None => true
              end
           then [mkLogCall "error" OtherObject "Missing unique number"]
           else []))
    else
      match queryApiGateway env (orEmpty uniqueNumber) with
      | (queryLog, Throw error) =>
          (Some 500, None,
           requestLog ++ apiVarsLog ++ map liftLogCall queryLog
           ++ [mkLogCall "error" (ErrorObject (QueryError error)) "Application error"])
      | (queryLog, Ok claimData) =>
          match getScenarioContent (asClaim claimData) with
          | Thrown message =>
              (Some 500, None,
               requestLog ++ apiVarsLog ++ map liftLogCall queryLog
               ++ [mkLogCall "info" OtherObject "ClaimData";
                   mkLogCall "error" (ErrorObject (ContentError message))
                     "Application error"])
          | Returned scenarioContent =>
              (None, Some scenarioContent,
               requestLog ++ apiVarsLog ++ map liftLogCall queryLog
               ++ [mkLogCall "info" OtherObject "ClaimData";
                   mkLogCall "info" OtherObject "ScenarioContent"])
          end
      end in
  mkServerSideRun
    (mkHomeProps scenarioContent errorCode userArrivedFromUioMobile assetPrefix
       URL_PREFIXES ENABLE_GOOGLE_ANALYTICS ENABLE_MAINTENANCE_PAGE
       (serverSideTranslations
          (if truthy locale then orEmpty locale else "en")
          ["common"; "claim-details"; "claim-status"]))
    (if truthyCode errorCode then errorCode else None)
    logs
    console.

End Pages.

(** ** components/TransLine *)

(** What the component imports: [getUrl] and the [t] of [useTranslation]. *)
Class TransLineImports : Type := {
  getUrl : string -> option string;
  t : string -> string
}.

(** An [<a>] element: its attributes. *)
Record Anchor : Type := mkAnchor {
  href : string;
  key : string;
  target : option string;
  rel : option string
}.

(** What [TransLine] returns: the shimmer, or the [Trans] element with its
    key and its children. *)
Inductive TransLineElement : Type :=
| Shimmer
| Trans (i18nKey : string) (children : list Anchor).

Section TransLine.

Context {transLine : TransLineImports}.

Definition resolveUrl (link : string) (userArrivedFromUioMobile : bool) : string :=
  if String.eqb link "uio-home"
  then
    let uioHomeLink :=
      if userArrivedFromUioMobile
      then getUrl "uio-mobile-home-url"
      else getUrl "uio-desktop-home-url" in
    if truthy uioHomeLink then orEmpty uioHomeLink else t link
  else t link.

(** [internalLink]: the two expressions are anchored at the start of the
    text. *)
Definition internalLink (link : string) : bool :=
  String.prefix "uio-" link || String.prefix "bpo-" link.

(** The anchor that one turn of the loop of [TransLine] pushes. *)
Definition linkComponent (userArrivedFromUioMobile : bool) (link : string) : Anchor :=
  let href := resolveUrl link userArrivedFromUioMobile in
  if internalLink link
  then mkAnchor href link None None
  else mkAnchor href link (Some "_blank") (Some "noopener noreferrer").

Definition TransLine (loading userArrivedFromUioMobile : bool) (i18nKey : string)
  (links : list string) : TransLineElement :=
  if loading then Shimmer
  else
    let linkComponents :=
      if (0 <? Z.of_nat (length links))
      then map (linkComponent userArrivedFromUioMobile) links
      else [] in
    Trans i18nKey linkComponents.

End TransLine.

(** ** Sample data for the page *)

(** A reading of the body as a claim without pending determinations, whose
    [claimDetails] are there when the body has the property. *)
Definition samplePage : @PageImports sampleNumbers plainContent := {|
  asClaim := fun body =>
    (sampleClaim (Some []) (Some false) (Some true)
       match getProperty body "claimDetails" with
       | Some _ => Some "UI"
       | None => None
       end
     : Claim.t (@ClaimDetailsResult plainContent));
  Translations := unit;
  serverSideTranslations := fun _ _ => tt
|}.

(** The headers of a request with the unique number 12345. *)
Definition sampleHeaders : string -> JsString :=
  fun name => if String.eqb name "uniquenumber" then Some "12345" else None.

(** * Properties *)

(** ** JavaScript values *)

Lemma truthy_false_iff (v : JsString) : truthy v = false <-> v = None \/ v = Some "".
Proof.
  destruct v as [s|]; simpl.
  - rewrite negb_false_iff, String.eqb_eq. split.
    + intros ->. now right.
    + intros [H|H]; [discriminate H | now injection H].
  - split; auto.
Qed.

Lemma truthy_true_iff (v : JsString) :
  truthy v = true <-> exists s, v = Some s /\ s <> "".
Proof.
  destruct v as [s|]; simpl.
  - rewrite negb_true_iff, String.eqb_neq. split.
    + intro H. now exists s.
    + intros [s' [H Hs]]. now injection H as ->.
  - split; [discriminate | intros [s [H _]]; discriminate H].
Qed.

Lemma absentOrEmpty_truthy (v : JsString) : absentOrEmpty v <-> truthy v = false.
Proof. symmetry. apply truthy_false_iff. Qed.

Lemma hasText_truthy (v : JsString) : hasText v <-> truthy v = true.
Proof. symmetry. apply truthy_true_iff. Qed.

Lemma includes_In (values : list string) (s : string) :
  includes values s = true <-> In s values.
Proof.
  unfold includes. rewrite existsb_exists. split.
  - intros [x [Hin Heq]]. apply String.eqb_eq in Heq. now subst.
  - intro Hin. exists s. split; [exact Hin | apply String.eqb_refl].
Qed.

Section ScenarioProperties.

Context {dateTime : DateTimeImports} {content : ContentImports}.

Local Abbreviation Claim := (Claim.t ClaimDetailsResult).

(** ** The loop, record by record *)

Lemma Category_eqb_eq (a b : Category) : Category_eqb a b = true <-> a = b.
Proof. destruct a, b; simpl; split; intro H; try reflexivity; discriminate H. Qed.

Lemma hasCategory_spec (c : Category) (pds : list PendingDetermination) :
  hasCategory c pds = true <-> exists pd, In pd pds /\ classify pd = c.
Proof.
  unfold hasCategory. rewrite existsb_exists.
  split; intros [pd [Hin Hc]]; exists pd; split; auto; now apply Category_eqb_eq.
Qed.

Lemma hasCategory_false (c : Category) (pds : list PendingDetermination) :
  hasCategory c pds = false <-> ~ exists pd, In pd pds /\ classify pd = c.
Proof.
  rewrite <- hasCategory_spec. destruct (hasCategory c pds); split; intro H.
  - discriminate H.
  - exfalso. now apply H.
  - intro H'. discriminate H'.
  - reflexivity.
Qed.

(** The effect of one turn of the loop is decided by the category of the
    record. *)
Lemma loopBody_classify (st : LoopState) (pd : PendingDetermination) :
  loopBody st pd =
  match classify pd with
  | PENDING_SCHEDULED =>
      if match earliestScheduled st with
         | None => true
         | Some earliest => isScheduledStrictlyBefore pd earliest
         end
      then mkLoopState (Some pd) (hasAwaitingDecision st) (hasNotYetScheduled st)
      else st
  | PENDING_AWAITING_DECISION =>
      mkLoopState (earliestScheduled st) true (hasNotYetScheduled st)
  | NOT_YET_SCHEDULED =>
      mkLoopState (earliestScheduled st) (hasAwaitingDecision st) true
  | IGNORED => st
  end.
Proof.
  unfold loopBody, classify.
  destruct (isDeterminationStatusPending pd && isValidDate (scheduleDate pd)).
  - destruct (isDatePast (parseConvertDate (scheduleDate pd))); reflexivity.
  - destruct (negb (truthy (determinationStatus pd))
              && negb (truthy (scheduleDate pd)) && truthy (requestDate pd));
      reflexivity.
Qed.

Lemma fold_hasAwaitingDecision (pds : list PendingDetermination) (st : LoopState) :
  hasAwaitingDecision (fold_left loopBody pds st)
  = hasAwaitingDecision st || hasCategory PENDING_AWAITING_DECISION pds.
Proof.
  revert st. induction pds as [|pd pds IH]; intro st; simpl.
  - now rewrite orb_false_r.
  - rewrite IH, loopBody_classify.
    destruct (classify pd); simpl.
    + destruct (match earliestScheduled st with
                | None => true
                | Some e => isScheduledStrictlyBefore pd e
                end); reflexivity.
    + now rewrite orb_true_r.
    + reflexivity.
    + reflexivity.
Qed.

Lemma fold_hasNotYetScheduled (pds : list PendingDetermination) (st : LoopState) :
  hasNotYetScheduled (fold_left loopBody pds st)
  = hasNotYetScheduled st || hasCategory NOT_YET_SCHEDULED pds.
Proof.
  revert st. induction pds as [|pd pds IH]; intro st; simpl.
  - now rewrite orb_false_r.
  - rewrite IH, loopBody_classify.
    destruct (classify pd); simpl.
    + destruct (match earliestScheduled st with
                | None => true
                | Some e => isScheduledStrictlyBefore pd e
                end); reflexivity.
    + reflexivity.
    + now rewrite orb_true_r.
    + reflexivity.
Qed.

Lemma fold_earliest_some (pds : list PendingDetermination) (st : LoopState)
  (best : PendingDetermination) :
  earliestScheduled st = Some best ->
  earliestScheduled (fold_left loopBody pds st)
  = Some (earliestFrom best (scheduledRecords pds)).
Proof.
  revert st best. induction pds as [|pd pds IH]; intros st best Hst; simpl.
  - exact Hst.
  - rewrite loopBody_classify. unfold scheduledRecords in *. simpl.
    destruct (classify pd) eqn:Hc; simpl; try (apply IH; exact Hst).
    rewrite Hst. destruct (isScheduledStrictlyBefore pd best); apply IH; auto.
Qed.

Lemma fold_earliest_none (pds : list PendingDetermination) (st : LoopState) :
  earliestScheduled st = None ->
  earliestScheduled (fold_left loopBody pds st) = earliestOf pds.
Proof.
  revert st. induction pds as [|pd pds IH]; intros st Hst; simpl.
  - exact Hst.
  - rewrite loopBody_classify. unfold earliestOf, earliestIn, scheduledRecords in *. simpl.
    destruct (classify pd) eqn:Hc; simpl; try (apply IH; exact Hst).
    rewrite Hst. now apply fold_earliest_some.
Qed.

(** The result of the whole function in terms of the categories present. *)
Lemma identify_by_category (pds : list PendingDetermination) :
  identifyPendingDeterminationScenario pds =
  match earliestOf pds with
  | Some earliest => Some (mkScenario Scenario2 (Some earliest))
  | None =>
      if hasCategory PENDING_AWAITING_DECISION pds then Some (mkScenario Scenario3 None)
      else if hasCategory NOT_YET_SCHEDULED pds then Some (mkScenario Scenario1 None)
      else None
  end.
Proof.
  unfold identifyPendingDeterminationScenario, runLoop.
  rewrite (fold_earliest_none pds initialState eq_refl).
  rewrite fold_hasAwaitingDecision, fold_hasNotYetScheduled. reflexivity.
Qed.

Lemma scheduledRecords_In (pds : list PendingDetermination) (pd : PendingDetermination) :
  In pd (scheduledRecords pds) <-> In pd pds /\ classify pd = PENDING_SCHEDULED.
Proof.
  unfold scheduledRecords. rewrite filter_In. now rewrite Category_eqb_eq.
Qed.

Lemma earliestOf_none (pds : list PendingDetermination) :
  earliestOf pds = None <-> hasCategory PENDING_SCHEDULED pds = false.
Proof.
  unfold earliestOf, earliestIn. rewrite hasCategory_false.
  destruct (scheduledRecords pds) as [|x l] eqn:Hs; split; intro H.
  - intros [pd Hpd]. apply scheduledRecords_In in Hpd. rewrite Hs in Hpd. exact Hpd.
  - reflexivity.
  - discriminate H.
  - exfalso. apply H. exists x. apply scheduledRecords_In. rewrite Hs. now left.
Qed.

Lemma earliestFrom_In (rest : list PendingDetermination) (best : PendingDetermination) :
  In (earliestFrom best rest) (best :: rest).
Proof.
  revert best. induction rest as [|pd rest IH]; intro best; simpl.
  - now left.
  - destruct (IH (if isScheduledStrictlyBefore pd best then pd else best)) as [H|H].
    + destruct (isScheduledStrictlyBefore pd best); rewrite <- H; auto.
    + auto.
Qed.

Lemma earliestOf_In (pds : list PendingDetermination) (r : PendingDetermination) :
  earliestOf pds = Some r -> In r pds /\ classify r = PENDING_SCHEDULED.
Proof.
  unfold earliestOf, earliestIn.
  destruct (scheduledRecords pds) as [|x l] eqn:Hs; intro H.
  - discriminate H.
  - injection H as <-. apply scheduledRecords_In. rewrite Hs. apply earliestFrom_In.
Qed.

Lemma classify_scheduled_iff (pd : PendingDetermination) :
  classify pd = PENDING_SCHEDULED <->
  isDeterminationStatusPending pd = true
  /\ isValidDate (scheduleDate pd) = true
  /\ isDatePast (parseConvertDate (scheduleDate pd)) = false.
Proof.
  unfold classify.
  destruct (isDeterminationStatusPending pd); destruct (isValidDate (scheduleDate pd));
    simpl;
    try destruct (isDatePast (parseConvertDate (scheduleDate pd)));
    try destruct (negb (truthy (determinationStatus pd))
                  && negb (truthy (scheduleDate pd)) && truthy (requestDate pd));
    split; try discriminate; try tauto; intros [H1 [H2 H3]]; discriminate.
Qed.

(** ** Precedence of the pending determination scenarios *)

Lemma remainingScenario_types (claimData : Claim) :
  In (scenarioType (remainingScenario claimData)) [Scenario4; Scenario5; Scenario6].
Proof.
  unfold remainingScenario.
  destruct (strictEq (Claim.hasPendingWeeks claimData) true); simpl; auto.
  destruct (strictEq (Claim.hasCertificationWeeksAvailable claimData) false); simpl; auto.
Qed.

Lemma getScenario_without_determination (claimData : Claim) :
  (Claim.pendingDetermination claimData = None
   \/ Claim.pendingDetermination claimData = Some []
   \/ exists pds, Claim.pendingDetermination claimData = Some pds
                  /\ identifyPendingDeterminationScenario pds = None) ->
  getScenario claimData = remainingScenario claimData.
Proof.
  unfold getScenario. intros [H | [H | [pds [H Hid]]]]; rewrite H.
  - reflexivity.
  - reflexivity.
  - rewrite Hid. now destruct (0 <? Z.of_nat (length pds)).
Qed.

(** C1.  The aggregate result of [identifyPendingDeterminationScenario]
    follows the precedence scenario 2 over scenario 3 over scenario 1: with at
    least one record classified PENDING_SCHEDULED the result is scenario 2;
    otherwise, with at least one PENDING_AWAITING_DECISION record, it is
    scenario 3; otherwise, with at least one NOT_YET_SCHEDULED record, it is
    scenario 1; otherwise the result is null, and [getScenario] falls back to
    one of the scenarios 4, 5 and 6. *)
Theorem identify_precedence (pds : list PendingDetermination) :
  ((exists pd, In pd pds /\ classify pd = PENDING_SCHEDULED) ->
   exists earliest,
     identifyPendingDeterminationScenario pds
     = Some (mkScenario Scenario2 (Some earliest)))
  /\ (~ (exists pd, In pd pds /\ classify pd = PENDING_SCHEDULED) ->
      (exists pd, In pd pds /\ classify pd = PENDING_AWAITING_DECISION) ->
      identifyPendingDeterminationScenario pds = Some (mkScenario Scenario3 None))
  /\ (~ (exists pd, In pd pds /\ classify pd = PENDING_SCHEDULED) ->
      ~ (exists pd, In pd pds /\ classify pd = PENDING_AWAITING_DECISION) ->
      (exists pd, In pd pds /\ classify pd = NOT_YET_SCHEDULED) ->
      identifyPendingDeterminationScenario pds = Some (mkScenario Scenario1 None))
  /\ (~ (exists pd, In pd pds /\ classify pd = PENDING_SCHEDULED) ->
      ~ (exists pd, In pd pds /\ classify pd = PENDING_AWAITING_DECISION) ->
      ~ (exists pd, In pd pds /\ classify pd = NOT_YET_SCHEDULED) ->
      identifyPendingDeterminationScenario pds = None
      /\ forall claimData : Claim,
           Claim.pendingDetermination claimData = Some pds ->
           In (scenarioType (getScenario claimData)) [Scenario4; Scenario5; Scenario6]).
Proof.
  rewrite identify_by_category.
  split; [| split; [| split]].
  - intro H. apply hasCategory_spec in H.
    destruct (earliestOf pds) as [e|] eqn:He.
    + now exists e.
    + apply earliestOf_none in He. rewrite He in H. discriminate H.
  - intros H2 H3. apply hasCategory_false, earliestOf_none in H2.
    apply hasCategory_spec in H3. now rewrite H2, H3.
  - intros H2 H3 H1. apply hasCategory_false, earliestOf_none in H2.
    apply hasCategory_false in H3. apply hasCategory_spec in H1.
    now rewrite H2, H3, H1.
  - intros H2 H3 H1. apply hasCategory_false, earliestOf_none in H2.
    apply hasCategory_false in H3, H1. split.
    + now rewrite H2, H3, H1.
    + intros claimData Hpds.
      rewrite getScenario_without_determination.
      * apply remainingScenario_types.
      * right. right. exists pds. split; [exact Hpds |].
        rewrite identify_by_category. now rewrite H2, H3, H1.
Qed.

(** C10.  Whenever [identifyPendingDeterminationScenario] returns a result,
    its [pendingDetermination] field is present exactly when the
    [scenarioType] is [Scenario2]; the carried record is then an element of
    the input list, satisfies [isDeterminationStatusPending], has a
    [scheduleDate] accepted by [isValidDate], and its parsed schedule date is
    not past. *)
Theorem identify_carried_record (pds : list PendingDetermination)
  (result : PendingDeterminationScenario) :
  identifyPendingDeterminationScenario pds = Some result ->
  ((exists carried, pendingDetermination result = Some carried)
   <-> scenarioType result = Scenario2)
  /\ forall carried,
       pendingDetermination result = Some carried ->
       In carried pds
       /\ isDeterminationStatusPending carried = true
       /\ isValidDate (scheduleDate carried) = true
       /\ isDatePast (parseConvertDate (scheduleDate carried)) = false.
Proof.
  rewrite identify_by_category.
  destruct (earliestOf pds) as [e|] eqn:He.
  - intro H. injection H as <-. simpl. split.
    + split; [reflexivity | intros _; now exists e].
    + intros carried Hc. injection Hc as <-.
      apply earliestOf_In in He. destruct He as [Hin Hcl].
      apply classify_scheduled_iff in Hcl. tauto.
  - destruct (hasCategory PENDING_AWAITING_DECISION pds);
      [| destruct (hasCategory NOT_YET_SCHEDULED pds)];
      intro H; try discriminate H; injection H as <-; simpl; split;
      try (split; [intros [c Hc]; discriminate Hc | discriminate]);
      intros carried Hc; discriminate Hc.
Qed.

(** ** The remaining scenarios *)

(** C4.  When the determination classifier yields no scenario (the claim has
    no [pendingDetermination] array, an empty one, or one for which
    [identifyPendingDeterminationScenario] returns null), [getScenario]
    returns scenario 4 if [hasPendingWeeks === true]; otherwise scenario 5 if
    [hasCertificationWeeksAvailable === false], and scenario 6 if not. *)
Theorem getScenario_remaining (claimData : Claim) :
  (Claim.pendingDetermination claimData = None
   \/ Claim.pendingDetermination claimData = Some []
   \/ exists pds, Claim.pendingDetermination claimData = Some pds
                  /\ identifyPendingDeterminationScenario pds = None) ->
  (Claim.hasPendingWeeks claimData = Some true ->
   getScenario claimData = mkScenario Scenario4 None)
  /\ (Claim.hasPendingWeeks claimData <> Some true ->
      Claim.hasCertificationWeeksAvailable claimData = Some false ->
      getScenario claimData = mkScenario Scenario5 None)
  /\ (Claim.hasPendingWeeks claimData <> Some true ->
      Claim.hasCertificationWeeksAvailable claimData <> Some false ->
      getScenario claimData = mkScenario Scenario6 None).
Proof.
  intro H. rewrite (getScenario_without_determination claimData H).
  unfold remainingScenario.
  destruct (Claim.hasPendingWeeks claimData) as [[|]|];
    destruct (Claim.hasCertificationWeeksAvailable claimData) as [[|]|];
    simpl; repeat split; intros; try reflexivity; try congruence.
Qed.

(** C9.  [continueCertifying scenarioType claim] is true exactly when the
    scenario is neither [Scenario5] nor [Scenario6] and
    [claim.hasCertificationWeeksAvailable] is truthy; in every other case it
    is false. *)
Theorem continueCertifying_iff (scenario : ScenarioType) (claimData : Claim) :
  (continueCertifying scenario claimData = true
   <-> scenario <> Scenario5 /\ scenario <> Scenario6
       /\ truthyFlag (Claim.hasCertificationWeeksAvailable claimData) = true)
  /\ (continueCertifying scenario claimData = false
      <-> ~ (scenario <> Scenario5 /\ scenario <> Scenario6
             /\ truthyFlag (Claim.hasCertificationWeeksAvailable claimData) = true)).
Proof.
  assert (Hiff : continueCertifying scenario claimData = true
                 <-> scenario <> Scenario5 /\ scenario <> Scenario6
                     /\ truthyFlag (Claim.hasCertificationWeeksAvailable claimData) = true).
  { unfold continueCertifying.
    destruct (truthyFlag (Claim.hasCertificationWeeksAvailable claimData));
      destruct scenario; simpl; split; intro H;
      try discriminate H; try reflexivity;
      try (repeat split; discriminate);
      destruct H as [H5 [H6 Ht]]; congruence. }
  split; [exact Hiff |].
  rewrite <- Hiff.
  destruct (continueCertifying scenario claimData); split; intro H.
  - discriminate H.
  - exfalso. now apply H.
  - discriminate.
  - reflexivity.
Qed.

(** C8.  [getScenarioContent] throws exactly when the claim has no
    [claimDetails]; the classification never fails: [getScenario] returns a
    result for every claim, with one of the six scenario codes. *)
Theorem getScenarioContent_throws_iff (claimData : Claim) :
  ((exists message, getScenarioContent claimData = Thrown message)
   <-> Claim.claimDetails claimData = None)
  /\ (Claim.claimDetails claimData = None ->
      getScenarioContent claimData = Thrown "Missing claim details")
  /\ (forall claimDetails,
        Claim.claimDetails claimData = Some claimDetails ->
        exists statusContent,
          getScenarioContent claimData
          = Returned (mkScenarioContent statusContent (getClaimDetails claimDetails)))
  /\ (exists scenario,
        scenarioType (getScenario claimData) = scenario
        /\ In scenario [Scenario1; Scenario2; Scenario3; Scenario4; Scenario5; Scenario6]
        /\ forall other, scenarioType (getScenario claimData) = other -> other = scenario).
Proof.
  assert (Hcode : exists scenario,
             scenarioType (getScenario claimData) = scenario
             /\ In scenario [Scenario1; Scenario2; Scenario3; Scenario4; Scenario5; Scenario6]
             /\ forall other, scenarioType (getScenario claimData) = other -> other = scenario).
  { exists (scenarioType (getScenario claimData)). split; [reflexivity | split].
    - destruct (scenarioType (getScenario claimData)); simpl; tauto.
    - intros other H. symmetry. exact H. }
  unfold getScenarioContent.
  destruct (Claim.claimDetails claimData) as [d|].
  - split; [split | split; [| split]].
    + intros [m Hm]. discriminate Hm.
    + discriminate.
    + discriminate.
    + intros d' Hd. injection Hd as <-. eexists. reflexivity.
    + exact Hcode.
  - split; [split | split; [| split]].
    + reflexivity.
    + intros _. now exists "Missing claim details".
    + reflexivity.
    + intros d Hd. discriminate Hd.
    + exact Hcode.
Qed.

(** ** The categories of a record *)

Lemma isDeterminationStatusPending_iff (pd : PendingDetermination) :
  isDeterminationStatusPending pd = true <->
  absentOrEmpty (determinationStatus pd)
  \/ exists status, determinationStatus pd = Some status
                    /\ ~ In status NonPendingDeterminationValues.
Proof.
  unfold isDeterminationStatusPending. rewrite orb_true_iff, negb_true_iff.
  rewrite <- absentOrEmpty_truthy.
  destruct (determinationStatus pd) as [status|] eqn:Hs.
  - rewrite negb_true_iff. split; intros [H|H].
    + now left.
    + right. exists status. split; [reflexivity|].
      rewrite <- includes_In. now rewrite H.
    + now left.
    + right. destruct H as [s' [Heq Hnot]]. injection Heq as <-.
      rewrite <- includes_In in Hnot. now destruct (includes NonPendingDeterminationValues status).
  - split; intros _; left; now left.
Qed.

Section Classification.

(** [isValidDate] rejects a schedule date that is missing or empty: there is
    nothing to parse. *)
Hypothesis isValidDate_falsy : forall v : JsString, truthy v = false -> isValidDate v = false.

(** C3, as amended.  Each record falls in exactly one of four categories.  Its
    status counts as pending iff it is absent, empty, or not a case-sensitive
    member of the list of non-pending values.  Pending with a valid schedule
    date that is not past is PENDING_SCHEDULED; pending with a valid schedule
    date that is past is PENDING_AWAITING_DECISION; a record whose status and
    schedule date are absent or empty and whose request date is a non-empty
    text is NOT_YET_SCHEDULED; every other combination is IGNORED and leaves
    the variables of the loop as they were. *)
Theorem classify_categories (pd : PendingDetermination) :
  (isDeterminationStatusPending pd = true <->
   absentOrEmpty (determinationStatus pd)
   \/ exists status, determinationStatus pd = Some status
                     /\ ~ In status NonPendingDeterminationValues)
  /\ (isDeterminationStatusPending pd = true ->
      isValidDate (scheduleDate pd) = true ->
      isDatePast (parseConvertDate (scheduleDate pd)) = false ->
      classify pd = PENDING_SCHEDULED)
  /\ (isDeterminationStatusPending pd = true ->
      isValidDate (scheduleDate pd) = true ->
      isDatePast (parseConvertDate (scheduleDate pd)) = true ->
      classify pd = PENDING_AWAITING_DECISION)
  /\ (absentOrEmpty (determinationStatus pd) ->
      absentOrEmpty (scheduleDate pd) ->
      hasText (requestDate pd) ->
      classify pd = NOT_YET_SCHEDULED)
  /\ (~ (isDeterminationStatusPending pd = true /\ isValidDate (scheduleDate pd) = true) ->
      ~ (absentOrEmpty (determinationStatus pd) /\ absentOrEmpty (scheduleDate pd)
         /\ hasText (requestDate pd)) ->
      classify pd = IGNORED)
  /\ (forall st : LoopState,
        loopBody st pd =
        match classify pd with
        | PENDING_SCHEDULED =>
            match earliestScheduled st with
            | None => mkLoopState (Some pd) (hasAwaitingDecision st) (hasNotYetScheduled st)
            | Some earliest =>
                if isScheduledStrictlyBefore pd earliest
                then mkLoopState (Some pd) (hasAwaitingDecision st) (hasNotYetScheduled st)
                else st
            end
        | PENDING_AWAITING_DECISION =>
            mkLoopState (earliestScheduled st) true (hasNotYetScheduled st)
        | NOT_YET_SCHEDULED =>
            mkLoopState (earliestScheduled st) (hasAwaitingDecision st) true
        | IGNORED => st
        end).
Proof.
  split; [apply isDeterminationStatusPending_iff |].
  split; [| split; [| split; [| split]]].
  - intros Hp Hv Hd. apply classify_scheduled_iff. auto.
  - intros Hp Hv Hd. unfold classify. now rewrite Hp, Hv, Hd.
  - intros Hs Hd Hr.
    apply absentOrEmpty_truthy in Hs, Hd. apply hasText_truthy in Hr.
    unfold classify. rewrite (isValidDate_falsy _ Hd), andb_false_r.
    now rewrite Hs, Hd, Hr.
  - intros Hnp Hnn. unfold classify.
    destruct (isDeterminationStatusPending pd && isValidDate (scheduleDate pd)) eqn:Hpv.
    + exfalso. apply Hnp. now apply andb_true_iff.
    + destruct (negb (truthy (determinationStatus pd))
                && negb (truthy (scheduleDate pd)) && truthy (requestDate pd)) eqn:Hn.
      * exfalso. apply Hnn.
        apply andb_true_iff in Hn. destruct Hn as [Hn Hr].
        apply andb_true_iff in Hn. destruct Hn as [Hs Hd].
        rewrite negb_true_iff in Hs, Hd.
        rewrite !absentOrEmpty_truthy, hasText_truthy. auto.
      * reflexivity.
  - intro st. rewrite loopBody_classify.
    destruct (classify pd); try reflexivity.
    now destruct (earliestScheduled st).
Qed.

End Classification.

(** ** The earliest scheduled record *)

Lemma filter_split {A : Type} (f : A -> bool) (l : list A) (s1 : list A) (x : A)
  (s2 : list A) :
  filter f l = s1 ++ x :: s2 ->
  exists l1 l2, l = l1 ++ x :: l2 /\ filter f l1 = s1 /\ filter f l2 = s2.
Proof.
  revert s1. induction l as [|a l IH]; intros s1 H; simpl in H.
  - destruct s1; discriminate H.
  - destruct (f a) eqn:Hfa.
    + destruct s1 as [|b s1]; simpl in H.
      * injection H as -> Hs2. exists [], l. auto.
      * injection H as -> Hs. destruct (IH s1 Hs) as [l1 [l2 [Hl [H1 H2]]]].
        exists (b :: l1), l2. simpl. rewrite Hfa, H1, H2, Hl. auto.
    + destruct (IH s1 H) as [l1 [l2 [Hl [H1 H2]]]].
      exists (a :: l1), l2. simpl. rewrite Hfa, H1, H2, Hl. auto.
Qed.

Lemma earliestFrom_snoc (best : PendingDetermination) (l : list PendingDetermination)
  (x : PendingDetermination) :
  earliestFrom best (l ++ [x])
  = if isScheduledStrictlyBefore x (earliestFrom best l) then x else earliestFrom best l.
Proof.
  revert best. induction l as [|a l IH]; intro best; simpl.
  - reflexivity.
  - apply IH.
Qed.

Lemma earliestIn_snoc (l : list PendingDetermination) (x : PendingDetermination) :
  earliestIn (l ++ [x])
  = match earliestIn l with
    | None => Some x
    | Some best => Some (if isScheduledStrictlyBefore x best then x else best)
    end.
Proof.
  destruct l as [|a l]; simpl.
  - reflexivity.
  - now rewrite earliestFrom_snoc.
Qed.

Lemma earliestIn_none (l : list PendingDetermination) : earliestIn l = None -> l = [].
Proof. destruct l; [reflexivity | discriminate]. Qed.

Lemma earliestIn_In (l : list PendingDetermination) (r : PendingDetermination) :
  earliestIn l = Some r -> In r l.
Proof.
  destruct l as [|a l]; simpl; intro H; [discriminate H |].
  injection H as <-. apply earliestFrom_In.
Qed.

(** The selected record sits somewhere in the list: nothing after it is
    strictly before it, and it is strictly before the record selected among
    those in front of it. *)
Lemma earliestIn_split (l : list PendingDetermination) (r : PendingDetermination) :
  earliestIn l = Some r ->
  exists l1 l2,
    l = l1 ++ r :: l2
    /\ (forall x, In x l2 -> isScheduledStrictlyBefore x r = false)
    /\ (forall best, earliestIn l1 = Some best -> isScheduledStrictlyBefore r best = true).
Proof.
  revert r. induction l as [|x l IH] using rev_ind; intros r H.
  - discriminate H.
  - rewrite earliestIn_snoc in H.
    destruct (earliestIn l) as [best|] eqn:Hbest.
    + destruct (isScheduledStrictlyBefore x best) eqn:Hx; injection H as <-.
      * exists l, []. split; [reflexivity | split].
        -- intros y [].
        -- intros b Hb. rewrite Hbest in Hb. now injection Hb as <-.
      * destruct (IH best eq_refl) as [l1 [l2 [Hl [Hafter Hbefore]]]].
        exists l1, (l2 ++ [x]). split; [| split].
        -- rewrite Hl, <- app_assoc. reflexivity.
        -- intros y Hy. apply in_app_or in Hy. destruct Hy as [Hy | [<- | []]]; auto.
        -- exact Hbefore.
    + injection H as <-. apply earliestIn_none in Hbest. subst l.
      exists [], []. split; [reflexivity | split].
      * intros y [].
      * intros b Hb. discriminate Hb.
Qed.

(** What [isScheduledStrictlyBefore] decides, branch by branch. *)
Lemma isScheduledStrictlyBefore_iff (first second : PendingDetermination) :
  isScheduledStrictlyBefore first second = true <->
  date_lt (dateOf first) (dateOf second) = true
  \/ (date_lt (dateOf first) (dateOf second) = false
      /\ date_gt (dateOf first) (dateOf second) = false
      /\ isFirstTimeSlotEarlier (timeSlotDesc first) (timeSlotDesc second) = Some true).
Proof.
  unfold isScheduledStrictlyBefore, dateOf.
  destruct (date_lt (parseConvertDate (scheduleDate first))
                    (parseConvertDate (scheduleDate second))).
  - split; auto.
  - destruct (date_gt (parseConvertDate (scheduleDate first))
                      (parseConvertDate (scheduleDate second))).
    + split; [discriminate | intros [H | [_ [H _]]]; discriminate H].
    + destruct (isFirstTimeSlotEarlier (timeSlotDesc first) (timeSlotDesc second))
        as [[|]|]; simpl; split; auto; try discriminate;
        intros [H | [_ [_ H]]]; discriminate H.
Qed.

Lemma earliestIn_min_date (l : list PendingDetermination) (r : PendingDetermination) :
  (forall x, In x l -> dateOf x <> None) ->
  earliestIn l = Some r ->
  forall x, In x l -> date_lt (dateOf x) (dateOf r) = false.
Proof.
  revert r. induction l as [|x l IH] using rev_ind; intros r Hvalid H y Hy.
  - destruct Hy.
  - rewrite earliestIn_snoc in H.
    assert (Hvalid' : forall z, In z l -> dateOf z <> None).
    { intros z Hz. apply Hvalid, in_or_app. now left. }
    assert (Hx : dateOf x <> None).
    { apply Hvalid, in_or_app. right. now left. }
    destruct (earliestIn l) as [best|] eqn:Hbest.
    + assert (Hb : dateOf best <> None) by (apply Hvalid'; now apply earliestIn_In).
      specialize (IH best Hvalid' eq_refl).
      destruct (isScheduledStrictlyBefore x best) eqn:Hsb; injection H as <-.
      * apply isScheduledStrictlyBefore_iff in Hsb.
        assert (Hle : date_gt (dateOf x) (dateOf best) = false).
        { destruct Hsb as [Hlt | [_ [Hgt _]]]; [| exact Hgt].
          destruct (dateOf x), (dateOf best); simpl in *; try reflexivity.
          apply Z.ltb_lt in Hlt. apply Z.ltb_ge. lia. }
        apply in_app_or in Hy. destruct Hy as [Hy | [<- | []]].
        -- specialize (IH y Hy). specialize (Hvalid' y Hy).
           destruct (dateOf y), (dateOf x), (dateOf best); simpl in *;
             try congruence.
           apply Z.ltb_ge in IH, Hle. apply Z.ltb_ge. lia.
        -- destruct (dateOf x); simpl; [apply Z.ltb_irrefl | reflexivity].
      * apply in_app_or in Hy. destruct Hy as [Hy | [<- | []]].
        -- now apply IH.
        -- destruct (date_lt (dateOf x) (dateOf best)) eqn:Hlt; [| reflexivity].
           assert (isScheduledStrictlyBefore x best = true)
             by (apply isScheduledStrictlyBefore_iff; now left).
           congruence.
    + injection H as <-. apply earliestIn_none in Hbest. subst l.
      destruct Hy as [<- | []].
      destruct (dateOf x); simpl; [apply Z.ltb_irrefl | reflexivity].
Qed.

Section EarliestScheduled.

(** A schedule date accepted by [isValidDate] parses to a valid [Date]; the
    source says of [isScheduledStrictlyBefore] that it "assumes that dates
    have already been checked for validity". *)
Hypothesis validDate_parses :
  forall v : JsString, isValidDate v = true -> parseConvertDate v <> None.

Lemma scheduled_has_date (pd : PendingDetermination) :
  classify pd = PENDING_SCHEDULED -> exists t, dateOf pd = Some t.
Proof.
  intro H. apply classify_scheduled_iff in H. destruct H as [_ [Hv _]].
  apply validDate_parses in Hv. unfold dateOf.
  destruct (parseConvertDate (scheduleDate pd)) as [t|]; [now exists t | congruence].
Qed.

(** Between two scheduled records the comparison is by date first and, on
    equal dates, by the time slots. *)
Lemma isScheduledStrictlyBefore_scheduled (first second : PendingDetermination) :
  classify first = PENDING_SCHEDULED ->
  classify second = PENDING_SCHEDULED ->
  (isScheduledStrictlyBefore first second = true <->
   exists t1 t2,
     dateOf first = Some t1 /\ dateOf second = Some t2
     /\ (t1 < t2
         \/ (t1 = t2
             /\ isFirstTimeSlotEarlier (timeSlotDesc first) (timeSlotDesc second)
                = Some true))).
Proof.
  intros H1 H2.
  destruct (scheduled_has_date first H1) as [t1 Ht1].
  destruct (scheduled_has_date second H2) as [t2 Ht2].
  rewrite isScheduledStrictlyBefore_iff, Ht1, Ht2. simpl.
  rewrite Z.ltb_lt, !Z.ltb_ge. split.
  - intro H. exists t1, t2. split; [reflexivity | split; [reflexivity |]].
    destruct H as [H | [Ha [Hb Hs]]]; [now left | right].
    split; [lia | exact Hs].
  - intros [u1 [u2 [Hu1 [Hu2 H]]]]. injection Hu1 as <-. injection Hu2 as <-.
    destruct H as [H | [-> Hs]]; [now left | right].
    split; [lia | split; [lia | exact Hs]].
Qed.

(** C2.  When the input has at least one PENDING_SCHEDULED record, the
    scenario 2 result carries the scheduled record with the earliest
    schedule.  Scheduled records are compared by parsed schedule date first
    and, on equal dates, by [isFirstTimeSlotEarlier] on their time-slot
    descriptions.  No scheduled record has an earlier date than the carried
    one; no scheduled record after it in the input is strictly before it, so
    the earliest found so far is kept when the tie-break is null or false and
    the first record in input order wins exact ties; and the carried record is
    strictly before the record selected among those in front of it. *)
Theorem identify_carries_earliest (pds : list PendingDetermination) :
  (exists pd, In pd pds /\ classify pd = PENDING_SCHEDULED) ->
  exists before carried after,
    pds = before ++ carried :: after
    /\ classify carried = PENDING_SCHEDULED
    /\ identifyPendingDeterminationScenario pds
       = Some (mkScenario Scenario2 (Some carried))
    /\ (forall pd, In pd pds -> classify pd = PENDING_SCHEDULED ->
        date_lt (dateOf pd) (dateOf carried) = false)
    /\ (forall pd, In pd after -> classify pd = PENDING_SCHEDULED ->
        isScheduledStrictlyBefore pd carried = false)
    /\ (forall best, earliestOf before = Some best ->
        isScheduledStrictlyBefore carried best = true)
    /\ (forall first second,
        classify first = PENDING_SCHEDULED ->
        classify second = PENDING_SCHEDULED ->
        (isScheduledStrictlyBefore first second = true <->
         exists t1 t2,
           dateOf first = Some t1 /\ dateOf second = Some t2
           /\ (t1 < t2
               \/ (t1 = t2
                   /\ isFirstTimeSlotEarlier (timeSlotDesc first) (timeSlotDesc second)
                      = Some true)))).
Proof.
  intro Hex. apply hasCategory_spec in Hex.
  destruct (earliestOf pds) as [carried|] eqn:He.
  2:{ apply earliestOf_none in He. rewrite He in Hex. discriminate Hex. }
  pose proof (earliestOf_In pds carried He) as [Hin Hcl].
  unfold earliestOf in He.
  destruct (earliestIn_split _ _ He) as [s1 [s2 [Hs [Hafter Hbefore]]]].
  destruct (filter_split _ _ _ _ _ Hs) as [before [after [Hpds [Hf1 Hf2]]]].
  exists before, carried, after.
  split; [exact Hpds |]. split; [exact Hcl |].
  split; [| split; [| split; [| split]]].
  - rewrite identify_by_category. unfold earliestOf. now rewrite He.
  - intros pd Hpd Hc.
    apply (earliestIn_min_date (scheduledRecords pds) carried).
    + intros x Hx. apply scheduledRecords_In in Hx. destruct Hx as [_ Hx].
      destruct (scheduled_has_date x Hx) as [t Ht]. congruence.
    + exact He.
    + now apply scheduledRecords_In.
  - intros pd Hpd Hc. apply Hafter. rewrite <- Hf2.
    now apply scheduledRecords_In.
  - intros best Hbest. apply Hbefore. rewrite <- Hf1. exact Hbest.
  - apply isScheduledStrictlyBefore_scheduled.
Qed.

End EarliestScheduled.

End ScenarioProperties.

(** ** Time slots *)

Lemma parseTimeSlot_range (text : string) (slot : TimeSlot.TimeSlot) :
  TimeSlot.parseTimeSlot text = Some slot ->
  1 <= TimeSlot.rangeStart slot <= 12 /\ 1 <= TimeSlot.rangeEnd slot <= 12.
Proof.
  unfold TimeSlot.parseTimeSlot.
  destruct (TimeSlot.readNumber _) as [[a rest]|]; [| discriminate].
  destruct (TimeSlot.readSeparator rest) as [rest'|]; [| discriminate].
  destruct (TimeSlot.readNumber rest') as [[b [|c tl]]|]; try discriminate.
  destruct (TimeSlot.hourInRange a && TimeSlot.hourInRange b) eqn:Hr; [| discriminate].
  intro H. injection H as <-. simpl.
  apply andb_true_iff in Hr. destruct Hr as [Ha Hb].
  unfold TimeSlot.hourInRange in Ha, Hb.
  apply andb_true_iff in Ha, Hb.
  destruct Ha as [Ha1 Ha2], Hb as [Hb1 Hb2].
  apply Z.leb_le in Ha1, Ha2, Hb1, Hb2. lia.
Qed.

(** C5.  [isFirstTimeSlotEarlier] treats parse failures asymmetrically: when
    both texts fail to parse the result is null; when only the second fails it
    is true; when only the first fails it is false.  A slot that parses is
    thus always reported as the earlier one. *)
Theorem isFirstTimeSlotEarlier_parse_failure (first second : string) :
  (TimeSlot.parseTimeSlot first = None ->
   TimeSlot.parseTimeSlot second = None ->
   TimeSlot.isFirstTimeSlotEarlier first second = None)
  /\ (TimeSlot.parseTimeSlot first <> None ->
      TimeSlot.parseTimeSlot second = None ->
      TimeSlot.isFirstTimeSlotEarlier first second = Some true)
  /\ (TimeSlot.parseTimeSlot first = None ->
      TimeSlot.parseTimeSlot second <> None ->
      TimeSlot.isFirstTimeSlotEarlier first second = Some false)
  /\ TimeSlot.isFirstTimeSlotEarlier "not a time slot" "not a time slot" = None
  /\ TimeSlot.isFirstTimeSlotEarlier "10-12" "not a time slot" = Some true
  /\ TimeSlot.isFirstTimeSlotEarlier "not a time slot" "10-12" = Some false.
Proof.
  unfold TimeSlot.isFirstTimeSlotEarlier at 1 2 3.
  split; [| split; [| split; [| split; [| split]]]]; try reflexivity.
  - intros -> ->. reflexivity.
  - intros H1 ->. now destruct (TimeSlot.parseTimeSlot first).
  - intros -> H2. now destruct (TimeSlot.parseTimeSlot second).
Qed.

Lemma dayOrder_ltb (a b : Z) :
  1 <= a <= 12 -> 1 <= b <= 12 ->
  (if TimeSlot.samePeriod a b then a <? b else TimeSlot.isAm a)
  = (TimeSlot.dayOrder a <? TimeSlot.dayOrder b).
Proof.
  intros Ha Hb. unfold TimeSlot.samePeriod, TimeSlot.dayOrder, TimeSlot.isAm.
  destruct (8 <=? a) eqn:Ea; destruct (8 <=? b) eqn:Eb; simpl.
  - reflexivity.
  - apply Z.leb_le in Ea. apply Z.leb_gt in Eb. symmetry. apply Z.ltb_lt. lia.
  - apply Z.leb_gt in Ea. apply Z.leb_le in Eb. symmetry. apply Z.ltb_ge. lia.
  - destruct (a <? b) eqn:E.
    + apply Z.ltb_lt in E. symmetry. apply Z.ltb_lt. lia.
    + apply Z.ltb_ge in E. symmetry. apply Z.ltb_ge. lia.
Qed.

(** C6.  When both texts parse, [isFirstTimeSlotEarlier] compares the two
    [rangeStart] values in the order of the working day, in which the morning
    hours 8 to 12 come before the afternoon hours 1 to 7: a morning start is
    earlier than an afternoon start, two starts of the same period are compared
    as numbers, and two slots at the same place in that order, identical slots
    among them, give false. *)
Theorem isFirstTimeSlotEarlier_both_parse (first second : string)
  (a b : TimeSlot.TimeSlot) :
  TimeSlot.parseTimeSlot first = Some a ->
  TimeSlot.parseTimeSlot second = Some b ->
  (TimeSlot.isAm (TimeSlot.rangeStart a) = true <-> 8 <= TimeSlot.rangeStart a <= 12)
  /\ (TimeSlot.isAm (TimeSlot.rangeStart a) = false <-> 1 <= TimeSlot.rangeStart a <= 7)
  /\ (TimeSlot.isAm (TimeSlot.rangeStart a) = true ->
      TimeSlot.isAm (TimeSlot.rangeStart b) = false ->
      TimeSlot.isFirstTimeSlotEarlier first second = Some true)
  /\ (TimeSlot.isAm (TimeSlot.rangeStart a) = false ->
      TimeSlot.isAm (TimeSlot.rangeStart b) = true ->
      TimeSlot.isFirstTimeSlotEarlier first second = Some false)
  /\ (TimeSlot.samePeriod (TimeSlot.rangeStart a) (TimeSlot.rangeStart b) = true ->
      TimeSlot.isFirstTimeSlotEarlier first second
      = Some (TimeSlot.rangeStart a <? TimeSlot.rangeStart b))
  /\ TimeSlot.isFirstTimeSlotEarlier first second
     = Some (TimeSlot.dayOrder (TimeSlot.rangeStart a)
             <? TimeSlot.dayOrder (TimeSlot.rangeStart b))
  /\ (TimeSlot.dayOrder (TimeSlot.rangeStart a) = TimeSlot.dayOrder (TimeSlot.rangeStart b) ->
      TimeSlot.isFirstTimeSlotEarlier first second = Some false)
  /\ (first = second -> TimeSlot.isFirstTimeSlotEarlier first second = Some false).
Proof.
  intros Ha Hb.
  destruct (parseTimeSlot_range first a Ha) as [Hra _].
  destruct (parseTimeSlot_range second b Hb) as [Hrb _].
  assert (Hres : TimeSlot.isFirstTimeSlotEarlier first second
                 = Some (TimeSlot.dayOrder (TimeSlot.rangeStart a)
                         <? TimeSlot.dayOrder (TimeSlot.rangeStart b))).
  { unfold TimeSlot.isFirstTimeSlotEarlier. rewrite Ha, Hb. simpl.
    rewrite <- (dayOrder_ltb _ _ Hra Hrb).
    now destruct (TimeSlot.samePeriod (TimeSlot.rangeStart a) (TimeSlot.rangeStart b)). }
  split; [| split; [| split; [| split; [| split; [| split; [| split]]]]]].
  - unfold TimeSlot.isAm. rewrite Z.leb_le. lia.
  - unfold TimeSlot.isAm. rewrite Z.leb_gt. lia.
  - intros H1 H2. rewrite Hres. f_equal. apply Z.ltb_lt.
    unfold TimeSlot.dayOrder. rewrite H1, H2.
    unfold TimeSlot.isAm in H1, H2. apply Z.leb_le in H1. lia.
  - intros H1 H2. rewrite Hres. f_equal. apply Z.ltb_ge.
    unfold TimeSlot.dayOrder. rewrite H1, H2.
    unfold TimeSlot.isAm in H1, H2. apply Z.leb_le in H2. lia.
  - intro Hs. unfold TimeSlot.isFirstTimeSlotEarlier. rewrite Ha, Hb. simpl.
    now rewrite Hs.
  - exact Hres.
  - intro He. rewrite Hres, He. now rewrite Z.ltb_irrefl.
  - intros ->. rewrite Hres. rewrite Ha in Hb. injection Hb as <-.
    now rewrite Z.ltb_irrefl.
Qed.

(** ** Valid dates *)

(** C7.  [isValidDate] is false when the text is unparseable as a date or the
    parsed date is earlier than the minimum date 2013-01-01, and true
    otherwise; it is true for the minimum date itself, false for the
    placeholder 0001-01-01, and it gives an answer for every text. *)
Theorem isValidDate_threshold (text : string) :
  (FormatDate.isValidDate text = false <->
   FormatDate.parseDate text = None
   \/ exists t, FormatDate.parseDate text = Some t /\ t < FormatDate.minDate)
  /\ (FormatDate.isValidDate text = true <->
      exists t, FormatDate.parseDate text = Some t /\ FormatDate.minDate <= t)
  /\ FormatDate.parseDate "2013-01-01T00:00:00" = Some FormatDate.minDate
  /\ FormatDate.isValidDate "2013-01-01T00:00:00" = true
  /\ FormatDate.isValidDate "0001-01-01T00:00:00" = false
  /\ FormatDate.isValidDate "nonsense" = false.
Proof.
  split; [| split; [| repeat split; reflexivity]].
  - unfold FormatDate.isValidDate.
    destruct (FormatDate.parseDate text) as [t|].
    + rewrite negb_false_iff, Z.ltb_lt. split.
      * intro H. right. now exists t.
      * intros [H | [t' [Ht' H]]]; [discriminate H | now injection Ht' as ->].
    + split; auto.
  - unfold FormatDate.isValidDate.
    destruct (FormatDate.parseDate text) as [t|].
    + rewrite negb_true_iff, Z.ltb_ge. split.
      * intro H. now exists t.
      * intros [t' [Ht' H]]. now injection Ht' as ->.
    + split; [discriminate | intros [t [Ht _]]; discriminate Ht].
Qed.

(** ** The spec's helpers meet the assumptions *)

Lemma specDateTime_isValidDate_falsy (now : Z) (v : JsString) :
  truthy v = false -> @isValidDate (specDateTime now) v = false.
Proof.
  intro H. apply truthy_false_iff in H. destruct H as [-> | ->]; reflexivity.
Qed.

Lemma specDateTime_validDate_parses (now : Z) (v : JsString) :
  @isValidDate (specDateTime now) v = true -> @parseConvertDate (specDateTime now) v <> None.
Proof.
  destruct v as [s|]; simpl; [| discriminate].
  unfold FormatDate.isValidDate, FormatDate.parseConvertDate.
  destruct (FormatDate.parseDate s); [discriminate | discriminate].
Qed.

(** ** The claims at sample inputs *)

Lemma identify_carries_earliest_witness :
  (exists pd,
     In pd [requestedOnly; scheduledJune1Afternoon; scheduledMay20; interviewedApril1]
     /\ @classify sampleImports pd = PENDING_SCHEDULED)
  /\ exists before carried after,
       [requestedOnly; scheduledJune1Afternoon; scheduledMay20; interviewedApril1]
       = before ++ carried :: after
       /\ @identifyPendingDeterminationScenario sampleImports
            [requestedOnly; scheduledJune1Afternoon; scheduledMay20; interviewedApril1]
          = Some (mkScenario Scenario2 (Some carried)).
Proof.
  assert (H : exists pd,
             In pd [requestedOnly; scheduledJune1Afternoon; scheduledMay20; interviewedApril1]
             /\ @classify sampleImports pd = PENDING_SCHEDULED).
  { exists scheduledMay20. split; [simpl; tauto | reflexivity]. }
  split; [exact H |].
  destruct (@identify_carries_earliest sampleImports
              (specDateTime_validDate_parses sampleNow) _ H)
    as [before [carried [after [Hsplit [_ [Hid _]]]]]].
  exists before, carried, after. split; [exact Hsplit | exact Hid].
Defined.

Lemma classify_categories_witness :
  (forall v : JsString, truthy v = false -> @isValidDate sampleImports v = false)
  /\ absentOrEmpty (determinationStatus requestedOnly)
  /\ absentOrEmpty (scheduleDate requestedOnly)
  /\ hasText (requestDate requestedOnly)
  /\ @classify sampleImports requestedOnly = NOT_YET_SCHEDULED.
Proof.
  assert (Hs : absentOrEmpty (determinationStatus requestedOnly)) by (left; reflexivity).
  assert (Hd : absentOrEmpty (scheduleDate requestedOnly)) by (left; reflexivity).
  assert (Hr : hasText (requestDate requestedOnly)).
  { exists "2021-04-20T00:00:00". split; [reflexivity | discriminate]. }
  split; [exact (specDateTime_isValidDate_falsy sampleNow) |].
  split; [exact Hs | split; [exact Hd | split; [exact Hr |]]].
  exact (proj1 (proj2 (proj2 (proj2
    (@classify_categories sampleImports
       (specDateTime_isValidDate_falsy sampleNow) requestedOnly)))) Hs Hd Hr).
Defined.

Lemma getScenario_remaining_witness :
  Claim.pendingDetermination (sampleClaim (Some []) (Some false) (Some false) (Some "UI"))
  = Some []
  /\ @getScenario sampleImports plainContent
       (sampleClaim (Some []) (Some false) (Some false) (Some "UI"))
     = mkScenario Scenario5 None.
Proof.
  split; [reflexivity |].
  refine (proj1 (proj2
    (@getScenario_remaining sampleImports plainContent
       (sampleClaim (Some []) (Some false) (Some false) (Some "UI"))
       (or_intror (or_introl eq_refl)))) _ eq_refl).
  discriminate.
Defined.

Lemma identify_carried_record_witness :
  @identifyPendingDeterminationScenario sampleImports
    [requestedOnly; scheduledJune1Afternoon; interviewedApril1]
  = Some (mkScenario Scenario2 (Some scheduledJune1Afternoon))
  /\ In scheduledJune1Afternoon [requestedOnly; scheduledJune1Afternoon; interviewedApril1]
  /\ isDeterminationStatusPending scheduledJune1Afternoon = true
  /\ @isValidDate sampleImports (scheduleDate scheduledJune1Afternoon) = true
  /\ @isDatePast sampleImports
       (@parseConvertDate sampleImports (scheduleDate scheduledJune1Afternoon)) = false.
Proof.
  split; [reflexivity |].
  exact (proj2
    (@identify_carried_record sampleImports
       [requestedOnly; scheduledJune1Afternoon; interviewedApril1]
       (mkScenario Scenario2 (Some scheduledJune1Afternoon)) eq_refl)
    scheduledJune1Afternoon eq_refl).
Defined.

Lemma isFirstTimeSlotEarlier_both_parse_witness :
  TimeSlot.parseTimeSlot "10-12" = Some (TimeSlot.mkTimeSlot 10 12)
  /\ TimeSlot.parseTimeSlot "1-3" = Some (TimeSlot.mkTimeSlot 1 3)
  /\ TimeSlot.isFirstTimeSlotEarlier "10-12" "1-3" = Some true.
Proof.
  split; [reflexivity | split; [reflexivity |]].
  exact (proj1 (proj2 (proj2
    (isFirstTimeSlotEarlier_both_parse "10-12" "1-3"
       (TimeSlot.mkTimeSlot 10 12) (TimeSlot.mkTimeSlot 1 3) eq_refl eq_refl)))
    eq_refl eq_refl).
Defined.

(** C3, as the spec words it, fails on the code: a record whose status is the
    empty string, without schedule date and with a request date, counts as
    NOT_YET_SCHEDULED although its status is not absent; a record whose
    request date is there but empty is ignored. *)
Lemma absent_is_not_falsy :
  (determinationStatus emptyStatusRequested <> None
   /\ @specCategory sampleImports emptyStatusRequested = IGNORED
   /\ @classify sampleImports emptyStatusRequested = NOT_YET_SCHEDULED
   /\ @loopBody sampleImports initialState emptyStatusRequested
      = mkLoopState None false true
   /\ @identifyPendingDeterminationScenario sampleImports [emptyStatusRequested]
      = Some (mkScenario Scenario1 None))
  /\ (requestDate emptyRequestDate <> None
      /\ @specCategory sampleImports emptyRequestDate = NOT_YET_SCHEDULED
      /\ @classify sampleImports emptyRequestDate = IGNORED
      /\ @loopBody sampleImports initialState emptyRequestDate = initialState
      /\ @identifyPendingDeterminationScenario sampleImports [emptyRequestDate] = None).
Proof.
  split; (split; [discriminate | repeat split; reflexivity]).
Qed.

(** ** Selection by a key *)

Section KeyedSelection.

Context {dateTime : DateTimeImports}.

Variable key : PendingDetermination -> Z.

(** When [isScheduledStrictlyBefore] is the comparison of a key, the selected
    record has the least key and is the first record with that key. *)
Lemma earliestIn_first_least (l : list PendingDetermination) (r : PendingDetermination) :
  (forall a b, In a l -> In b l ->
     (isScheduledStrictlyBefore a b = true <-> key a < key b)) ->
  earliestIn l = Some r ->
  exists l1 l2,
    l = l1 ++ r :: l2
    /\ (forall x, In x l1 -> key r < key x)
    /\ (forall x, In x l2 -> key r <= key x).
Proof.
  revert r. induction l as [|x l IH] using rev_ind; intros r Hkey H.
  - discriminate H.
  - rewrite earliestIn_snoc in H.
    assert (Hkey' : forall a b, In a l -> In b l ->
              (isScheduledStrictlyBefore a b = true <-> key a < key b)).
    { intros a b Ha Hb. apply Hkey; apply in_or_app; now left. }
    destruct (earliestIn l) as [best|] eqn:Hbest.
    + destruct (IH best Hkey' eq_refl) as [l1 [l2 [Hl [H1 H2]]]].
      assert (Hxb : isScheduledStrictlyBefore x best = true <-> key x < key best).
      { apply Hkey; apply in_or_app.
        - right. now left.
        - left. now apply earliestIn_In. }
      destruct (isScheduledStrictlyBefore x best) eqn:Hsb; injection H as <-.
      * assert (Hlt : key x < key best) by now apply Hxb.
        exists l, []. split; [reflexivity | split].
        -- intros y Hy. rewrite Hl in Hy. apply in_app_or in Hy.
           destruct Hy as [Hy | [<- | Hy]].
           ++ specialize (H1 y Hy). lia.
           ++ exact Hlt.
           ++ specialize (H2 y Hy). lia.
        -- intros y [].
      * assert (Hge : key best <= key x).
        { destruct (Z.lt_ge_cases (key x) (key best)) as [Hc | Hc]; [| exact Hc].
          apply Hxb in Hc. discriminate Hc. }
        exists l1, (l2 ++ [x]). split; [| split].
        -- rewrite Hl, <- app_assoc. reflexivity.
        -- exact H1.
        -- intros y Hy. apply in_app_or in Hy.
           destruct Hy as [Hy | [<- | []]]; [now apply H2 | exact Hge].
    + injection H as <-. apply earliestIn_none in Hbest. subst l.
      exists [], []. split; [reflexivity | split]; intros y [].
Qed.

End KeyedSelection.

(** With the time slots of the spec, the tie-break is the comparison of the
    places of the two descriptions in the working day. *)
Lemma isFirstTimeSlotEarlierField_order (first second : JsString) :
  TimeSlot.isFirstTimeSlotEarlierField first second = Some true
  <-> TimeSlot.fieldOrder first < TimeSlot.fieldOrder second.
Proof.
  assert (Hrange : forall v slot, TimeSlot.parseField v = Some slot ->
                     1 <= TimeSlot.rangeStart slot <= 12).
  { intros [s|] slot H; simpl in H; [| discriminate H].
    now apply parseTimeSlot_range in H. }
  unfold TimeSlot.isFirstTimeSlotEarlierField, TimeSlot.fieldOrder.
  destruct (TimeSlot.parseField first) as [a|] eqn:Ha;
    destruct (TimeSlot.parseField second) as [b|] eqn:Hb; simpl.
  - pose proof (Hrange _ _ Ha) as Hra. pose proof (Hrange _ _ Hb) as Hrb.
    pose proof (dayOrder_ltb _ _ Hra Hrb) as Hd.
    destruct (TimeSlot.samePeriod (TimeSlot.rangeStart a) (TimeSlot.rangeStart b));
      rewrite Hd, <- Z.ltb_lt; split; intro H; congruence.
  - pose proof (Hrange _ _ Ha) as Hra.
    unfold TimeSlot.dayOrder, TimeSlot.isAm.
    split; [intros _ | reflexivity].
    destruct (8 <=? TimeSlot.rangeStart a) eqn:E; [lia |].
    apply Z.leb_gt in E. lia.
  - pose proof (Hrange _ _ Hb) as Hrb.
    unfold TimeSlot.dayOrder, TimeSlot.isAm.
    split; [discriminate |].
    destruct (8 <=? TimeSlot.rangeStart b) eqn:E; [lia |].
    apply Z.leb_gt in E. lia.
  - split; [discriminate | lia].
Qed.

Lemma fieldOrder_range (v : JsString) : 8 <= TimeSlot.fieldOrder v <= 20.
Proof.
  unfold TimeSlot.fieldOrder.
  destruct (TimeSlot.parseField v) as [slot|] eqn:Hs; [| lia].
  assert (Hr : 1 <= TimeSlot.rangeStart slot <= 12).
  { destruct v as [s|]; simpl in Hs; [| discriminate Hs].
    now apply parseTimeSlot_range in Hs. }
  unfold TimeSlot.dayOrder, TimeSlot.isAm.
  destruct (8 <=? TimeSlot.rangeStart slot) eqn:E.
  - apply Z.leb_le in E. lia.
  - lia.
Qed.

(** With the helpers of the spec, the carried record is the first record of
    the input with the earliest schedule: it is earlier than every scheduled
    record in front of it, and no scheduled record behind it is earlier. *)
Theorem spec_identify_carries_first_earliest (now : Z)
  (pds : list PendingDetermination) :
  (exists pd, In pd pds /\ @classify (specDateTime now) pd = PENDING_SCHEDULED) ->
  exists before carried after,
    pds = before ++ carried :: after
    /\ @classify (specDateTime now) carried = PENDING_SCHEDULED
    /\ @identifyPendingDeterminationScenario (specDateTime now) pds
       = Some (mkScenario Scenario2 (Some carried))
    /\ (forall pd, In pd before ->
        @classify (specDateTime now) pd = PENDING_SCHEDULED ->
        earlierSchedule carried pd)
    /\ (forall pd, In pd after ->
        @classify (specDateTime now) pd = PENDING_SCHEDULED ->
        ~ earlierSchedule pd carried).
Proof.
  set (D := specDateTime now).
  set (date := fun pd : PendingDetermination =>
                 match @dateOf D pd with Some t => t | None => 0 end).
  set (key := fun pd : PendingDetermination =>
                date pd * 32 + TimeSlot.fieldOrder (timeSlotDesc pd)).
  assert (Hdate : forall pd, @classify D pd = PENDING_SCHEDULED ->
                    FormatDate.parseConvertDateField (scheduleDate pd) = Some (date pd)).
  { intros pd Hc.
    destruct (@scheduled_has_date D (specDateTime_validDate_parses now) pd Hc) as [t Ht].
    unfold date. rewrite Ht. exact Ht. }
  assert (Hearlier : forall a b,
            @classify D a = PENDING_SCHEDULED -> @classify D b = PENDING_SCHEDULED ->
            (earlierSchedule a b <-> key a < key b)).
  { intros a b Ha Hb. unfold earlierSchedule, key.
    pose proof (fieldOrder_range (timeSlotDesc a)).
    pose proof (fieldOrder_range (timeSlotDesc b)).
    rewrite (Hdate a Ha), (Hdate b Hb). split.
    - intros [t1 [t2 [H1 [H2 Hlt]]]]. injection H1 as <-. injection H2 as <-. lia.
    - intro Hlt. exists (date a), (date b). split; [reflexivity | split; [reflexivity |]].
      lia. }
  assert (Hkey : forall a b,
            @classify D a = PENDING_SCHEDULED -> @classify D b = PENDING_SCHEDULED ->
            (@isScheduledStrictlyBefore D a b = true <-> key a < key b)).
  { intros a b Ha Hb. rewrite <- (Hearlier a b Ha Hb).
    rewrite (@isScheduledStrictlyBefore_scheduled D (specDateTime_validDate_parses now) a b Ha Hb).
    unfold earlierSchedule. simpl.
    split; intros [t1 [t2 [H1 [H2 H]]]]; exists t1, t2;
      (split; [exact H1 | split; [exact H2 |]]);
      (destruct H as [H | [He Hs]]; [now left | right; split; [exact He |]]);
      now apply isFirstTimeSlotEarlierField_order. }
  intro Hex. apply hasCategory_spec in Hex.
  destruct (@earliestOf D pds) as [carried|] eqn:He.
  2:{ apply earliestOf_none in He. rewrite He in Hex. discriminate Hex. }
  pose proof (earliestOf_In pds carried He) as [Hin Hcl].
  unfold earliestOf in He.
  destruct (earliestIn_first_least key (@scheduledRecords D pds) carried)
    as [s1 [s2 [Hs [H1 H2]]]].
  { intros a b Ha Hb. apply scheduledRecords_In in Ha, Hb. apply Hkey; tauto. }
  { exact He. }
  destruct (filter_split _ _ _ _ _ Hs) as [before [after [Hpds [Hf1 Hf2]]]].
  exists before, carried, after.
  split; [exact Hpds | split; [exact Hcl | split; [| split]]].
  - rewrite identify_by_category. unfold earliestOf. now rewrite He.
  - intros pd Hpd Hc. apply (Hearlier carried pd Hcl Hc). apply H1.
    rewrite <- Hf1. now apply scheduledRecords_In.
  - intros pd Hpd Hc Hcontra. apply (Hearlier pd carried Hc Hcl) in Hcontra.
    assert (key carried <= key pd).
    { apply H2. rewrite <- Hf2. now apply scheduledRecords_In. }
    lia.
Qed.

(** ** The tests and the examples of the spec *)

(** tests/utils/timeSlot.test.ts, [parseTimeSlot]. *)
Example parseTimeSlot_tests :
  TimeSlot.parseTimeSlot "10-12" = Some (TimeSlot.mkTimeSlot 10 12)
  /\ TimeSlot.parseTimeSlot "1-3" = Some (TimeSlot.mkTimeSlot 1 3)
  /\ TimeSlot.parseTimeSlot "not a time slot" = None
  /\ TimeSlot.parseTimeSlot ("10" ++ enDash ++ "12")%string = Some (TimeSlot.mkTimeSlot 10 12)
  /\ TimeSlot.parseTimeSlot ("10" ++ emDash ++ "12")%string = Some (TimeSlot.mkTimeSlot 10 12).
Proof. repeat split; reflexivity. Qed.

(** tests/utils/timeSlot.test.ts, [isFirstTimeSlotEarlier] on two slots that
    parse. *)
Example isFirstTimeSlotEarlier_tests :
  TimeSlot.isFirstTimeSlotEarlier "10-12" "1-3" = Some true
  /\ TimeSlot.isFirstTimeSlotEarlier "1-3" "10-12" = Some false
  /\ TimeSlot.isFirstTimeSlotEarlier "10-12" "10-12" = Some false.
Proof. repeat split; reflexivity. Qed.

(** tests/utils/timeSlot.test.ts, [samePeriod]. *)
Example samePeriod_tests :
  TimeSlot.samePeriod 8 10 = true
  /\ TimeSlot.samePeriod 1 3 = true
  /\ TimeSlot.samePeriod 8 3 = false.
Proof. repeat split; reflexivity. Qed.

(** tests/utils/formatDate.test.ts, [isDatePast], with the clock at
    2020-05-05T00:00:00. *)
Example isDatePast_tests :
  FormatDate.parseDate "2020-05-05T00:00:00" = Some 1588636800
  /\ FormatDate.isDatePast 1588636800 (FormatDate.parseConvertDate "2020-05-04T00:00:00") = true
  /\ FormatDate.isDatePast 1588636800 (FormatDate.parseConvertDate "2020-05-05T00:00:00") = false
  /\ FormatDate.isDatePast 1588636800 (FormatDate.parseConvertDate "2020-05-05T23:59:59") = false
  /\ FormatDate.isDatePast 1588636800 (FormatDate.parseConvertDate "2020-05-06T00:00:00") = false.
Proof. repeat split; reflexivity. Qed.

(** The categories of the sample records, with the clock at 2021-05-05. *)
Example classify_samples :
  map (@classify sampleImports)
    [scheduledJune1Afternoon; scheduledMay20; interviewedApril1; requestedOnly;
     canceledJune1; placeholderDate; emptyStatusRequested; emptyRequestDate]
  = [PENDING_SCHEDULED; PENDING_SCHEDULED; PENDING_AWAITING_DECISION; NOT_YET_SCHEDULED;
     IGNORED; IGNORED; NOT_YET_SCHEDULED; IGNORED].
Proof. reflexivity. Qed.

(** A scheduled record and a record that is not yet scheduled give scenario
    2, in either order. *)
Example scenario2_over_scenario1 :
  @identifyPendingDeterminationScenario sampleImports [requestedOnly; scheduledMay20]
  = Some (mkScenario Scenario2 (Some scheduledMay20))
  /\ @identifyPendingDeterminationScenario sampleImports [scheduledMay20; requestedOnly]
     = Some (mkScenario Scenario2 (Some scheduledMay20))
  /\ @identifyPendingDeterminationScenario sampleImports [requestedOnly; interviewedApril1]
     = Some (mkScenario Scenario3 None)
  /\ @identifyPendingDeterminationScenario sampleImports [requestedOnly; canceledJune1]
     = Some (mkScenario Scenario1 None)
  /\ @identifyPendingDeterminationScenario sampleImports [canceledJune1; placeholderDate]
     = None.
Proof. repeat split; reflexivity. Qed.

(** Two scheduled records: the earlier date is carried; on the same date the
    earlier time slot; a slot that parses before one that does not; and the
    first record when neither slot decides. *)
Example earliest_scheduled_samples :
  @identifyPendingDeterminationScenario sampleImports [scheduledJune1Morning; scheduledMay20]
  = Some (mkScenario Scenario2 (Some scheduledMay20))
  /\ @identifyPendingDeterminationScenario sampleImports
       [scheduledJune1Afternoon; scheduledJune1Morning]
     = Some (mkScenario Scenario2 (Some scheduledJune1Morning))
  /\ @identifyPendingDeterminationScenario sampleImports
       [scheduledJune1Morning; scheduledJune1Afternoon]
     = Some (mkScenario Scenario2 (Some scheduledJune1Morning))
  /\ @identifyPendingDeterminationScenario sampleImports
       [scheduledJune1NoSlot; scheduledJune1Afternoon]
     = Some (mkScenario Scenario2 (Some scheduledJune1Afternoon))
  /\ @identifyPendingDeterminationScenario sampleImports
       [scheduledJune1Afternoon; scheduledJune1NoSlot]
     = Some (mkScenario Scenario2 (Some scheduledJune1Afternoon))
  /\ @identifyPendingDeterminationScenario sampleImports
       [scheduledJune1NoSlot; scheduledJune1NoSlot; scheduledJune1Afternoon;
        scheduledJune1Afternoon]
     = Some (mkScenario Scenario2 (Some scheduledJune1Afternoon)).
Proof. repeat split; reflexivity. Qed.

(** The flag scenarios of the spec. *)
Example flag_scenarios :
  @getScenario sampleImports plainContent
    (sampleClaim (Some []) (Some false) (Some false) (Some "UI"))
  = mkScenario Scenario5 None
  /\ @getScenario sampleImports plainContent
       (sampleClaim (Some []) (Some false) (Some true) (Some "UI"))
     = mkScenario Scenario6 None
  /\ @getScenario sampleImports plainContent
       (sampleClaim None (Some true) (Some false) (Some "UI"))
     = mkScenario Scenario4 None
  /\ @getScenario sampleImports plainContent
       (sampleClaim None (Some true) (Some true) (Some "UI"))
     = mkScenario Scenario4 None
  /\ @getScenario sampleImports plainContent
       (sampleClaim None None None (Some "UI"))
     = mkScenario Scenario6 None
  /\ @getScenario sampleImports plainContent
       (sampleClaim (Some [canceledJune1]) (Some true) None None)
     = mkScenario Scenario4 None.
Proof. repeat split; reflexivity. Qed.

(** [getScenarioContent] with and without [claimDetails]. *)
Example getScenarioContent_samples :
  @getScenarioContent sampleImports plainContent
    (sampleClaim (Some [scheduledMay20]) (Some false) (Some true) (Some "UI"))
  = Returned (mkScenarioContent (Scenario2, true) "UI")
  /\ @getScenarioContent sampleImports plainContent
       (sampleClaim (Some [scheduledMay20]) (Some false) (Some true) None)
     = Thrown "Missing claim details".
Proof. split; reflexivity. Qed.

(** * Further properties of the scenario code *)

Section ScenarioComposition.

Context {dateTime : DateTimeImports} {content : ContentImports}.

Local Abbreviation Claim := (Claim.t ClaimDetailsResult).

(** The scenario of the result, read off the categories present. *)
Lemma identify_scenarioType (pds : list PendingDetermination) :
  option_map scenarioType (identifyPendingDeterminationScenario pds)
  = if hasCategory PENDING_SCHEDULED pds then Some Scenario2
    else if hasCategory PENDING_AWAITING_DECISION pds then Some Scenario3
    else if hasCategory NOT_YET_SCHEDULED pds then Some Scenario1
    else None.
Proof.
  rewrite identify_by_category.
  destruct (earliestOf pds) as [e|] eqn:He.
  - destruct (hasCategory PENDING_SCHEDULED pds) eqn:Hs; [reflexivity |].
    apply earliestOf_none in Hs. congruence.
  - apply earliestOf_none in He. rewrite He.
    destruct (hasCategory PENDING_AWAITING_DECISION pds); [reflexivity |].
    destruct (hasCategory NOT_YET_SCHEDULED pds); reflexivity.
Qed.

Lemma hasCategory_app (c : Category) (l1 l2 : list PendingDetermination) :
  hasCategory c (l1 ++ l2) = hasCategory c l1 || hasCategory c l2.
Proof. unfold hasCategory. apply existsb_app. Qed.

(** X1.  The scenario of a concatenation is the one of its two parts that comes
    first in the precedence scenario 2, scenario 3, scenario 1, null: adding
    records never lowers the scenario. *)
Theorem identify_app_scenarioType (l1 l2 : list PendingDetermination) :
  option_map scenarioType (identifyPendingDeterminationScenario (l1 ++ l2))
  = match option_map scenarioType (identifyPendingDeterminationScenario l1),
          option_map scenarioType (identifyPendingDeterminationScenario l2) with
    | Some Scenario2, _ | _, Some Scenario2 => Some Scenario2
    | Some Scenario3, _ | _, Some Scenario3 => Some Scenario3
    | Some Scenario1, _ | _, Some Scenario1 => Some Scenario1
    | _, _ => None
    end.
Proof.
  rewrite !identify_scenarioType, !hasCategory_app.
  destruct (hasCategory PENDING_SCHEDULED l1), (hasCategory PENDING_SCHEDULED l2),
    (hasCategory PENDING_AWAITING_DECISION l1), (hasCategory PENDING_AWAITING_DECISION l2),
    (hasCategory NOT_YET_SCHEDULED l1), (hasCategory NOT_YET_SCHEDULED l2);
    reflexivity.
Qed.

Lemma hasCategory_Permutation (c : Category) (l1 l2 : list PendingDetermination) :
  Permutation l1 l2 -> hasCategory c l1 = hasCategory c l2.
Proof.
  intro Hp.
  destruct (hasCategory c l1) eqn:H1; symmetry.
  - apply hasCategory_spec in H1. apply hasCategory_spec.
    destruct H1 as [pd [Hin Hc]]. exists pd. split; [| exact Hc].
    now apply (Permutation_in _ Hp).
  - apply hasCategory_false in H1. apply hasCategory_false.
    intros [pd [Hin Hc]]. apply H1. exists pd. split; [| exact Hc].
    now apply (Permutation_in _ (Permutation_sym Hp)).
Qed.

(** X2.  The order of the records decides which record is carried, and nothing
    else: two arrays with the same records in a different order give the same
    scenario. *)
Theorem identify_scenarioType_Permutation (l1 l2 : list PendingDetermination) :
  Permutation l1 l2 ->
  option_map scenarioType (identifyPendingDeterminationScenario l1)
  = option_map scenarioType (identifyPendingDeterminationScenario l2).
Proof.
  intro Hp. rewrite !identify_scenarioType.
  now rewrite (hasCategory_Permutation PENDING_SCHEDULED _ _ Hp),
    (hasCategory_Permutation PENDING_AWAITING_DECISION _ _ Hp),
    (hasCategory_Permutation NOT_YET_SCHEDULED _ _ Hp).
Qed.

Lemma fold_loopBody_relevant (pds : list PendingDetermination) (st : LoopState) :
  fold_left loopBody pds st
  = fold_left loopBody
      (filter (fun pd => negb (Category_eqb (classify pd) IGNORED)) pds) st.
Proof.
  revert st. induction pds as [|pd pds IH]; intro st; simpl.
  - reflexivity.
  - destruct (classify pd) eqn:Hc; simpl; try apply IH.
    rewrite IH. f_equal. rewrite loopBody_classify, Hc. reflexivity.
Qed.

(** X3.  Records that fall in none of the three categories have no influence at
    all: the result, carried record included, is the one for the array without
    them, wherever they stand. *)
Theorem identify_without_ignored (pds : list PendingDetermination) :
  identifyPendingDeterminationScenario pds
  = identifyPendingDeterminationScenario
      (filter (fun pd => negb (Category_eqb (classify pd) IGNORED)) pds).
Proof.
  unfold identifyPendingDeterminationScenario, runLoop.
  now rewrite <- fold_loopBody_relevant.
Qed.

Lemma identify_result_types (pds : list PendingDetermination)
  (result : PendingDeterminationScenario) :
  identifyPendingDeterminationScenario pds = Some result ->
  In (scenarioType result) [Scenario1; Scenario2; Scenario3].
Proof.
  rewrite identify_by_category.
  destruct (earliestOf pds);
    [| destruct (hasCategory PENDING_AWAITING_DECISION pds);
       [| destruct (hasCategory NOT_YET_SCHEDULED pds)]];
    intro H; try discriminate H; injection H as <-; simpl; tauto.
Qed.

Lemma identify_nil : identifyPendingDeterminationScenario [] = None.
Proof. reflexivity. Qed.

(** What [getScenario] returns, by cases on the array of the claim. *)
Lemma getScenario_cases (claimData : Claim) :
  (exists pds result,
     Claim.pendingDetermination claimData = Some pds
     /\ pds <> []
     /\ identifyPendingDeterminationScenario pds = Some result
     /\ getScenario claimData = result)
  \/ getScenario claimData = remainingScenario claimData.
Proof.
  unfold getScenario.
  destruct (Claim.pendingDetermination claimData) as [pds|]; [| now right].
  destruct pds as [|pd pds]; [now right |].
  change (0 <? Z.of_nat (length (pd :: pds))) with true. cbv iota.
  destruct (identifyPendingDeterminationScenario (pd :: pds)) as [result|] eqn:Hid.
  - left. exists (pd :: pds), result.
    split; [reflexivity | split; [discriminate | split; [exact Hid | reflexivity]]].
  - right. reflexivity.
Qed.

Lemma identify_carried (pds : list PendingDetermination)
  (result : PendingDeterminationScenario) :
  identifyPendingDeterminationScenario pds = Some result ->
  ((exists carried, pendingDetermination result = Some carried)
   <-> scenarioType result = Scenario2)
  /\ forall carried,
       pendingDetermination result = Some carried ->
       In carried pds /\ classify carried = PENDING_SCHEDULED.
Proof.
  rewrite identify_by_category.
  destruct (earliestOf pds) as [e|] eqn:He.
  - intro H. injection H as <-. simpl. split.
    + split; [reflexivity | intros _; now exists e].
    + intros carried Hc. injection Hc as <-. now apply earliestOf_In.
  - destruct (hasCategory PENDING_AWAITING_DECISION pds);
      [| destruct (hasCategory NOT_YET_SCHEDULED pds)];
      intro H; try discriminate H; injection H as <-; simpl; split;
      try (split; [intros [c Hc]; discriminate Hc | discriminate]);
      intros carried Hc; discriminate Hc.
Qed.

Lemma remainingScenario_carries_nothing (claimData : Claim) :
  pendingDetermination (remainingScenario claimData) = None.
Proof.
  unfold remainingScenario.
  destruct (strictEq (Claim.hasPendingWeeks claimData) true); [reflexivity |].
  destruct (strictEq (Claim.hasCertificationWeeksAvailable claimData) false); reflexivity.
Qed.

(** X4.  The result of [getScenario] carries a record exactly when its scenario is
    scenario 2; the record is then one of the claim's own, with a pending
    status and a valid schedule date that is not past.  The scenarios 1, 2 and
    3 arise only for a claim with a non-empty [pendingDetermination] array. *)
Theorem getScenario_carried_record (claimData : Claim) :
  ((exists carried, pendingDetermination (getScenario claimData) = Some carried)
   <-> scenarioType (getScenario claimData) = Scenario2)
  /\ (forall carried,
        pendingDetermination (getScenario claimData) = Some carried ->
        exists pds,
          Claim.pendingDetermination claimData = Some pds
          /\ In carried pds
          /\ isDeterminationStatusPending carried = true
          /\ isValidDate (scheduleDate carried) = true
          /\ isDatePast (parseConvertDate (scheduleDate carried)) = false)
  /\ (In (scenarioType (getScenario claimData)) [Scenario1; Scenario2; Scenario3] ->
      exists pds,
        Claim.pendingDetermination claimData = Some pds
        /\ pds <> []
        /\ identifyPendingDeterminationScenario pds = Some (getScenario claimData)).
Proof.
  destruct (getScenario_cases claimData) as [[pds [result [Hp [Hne [Hid Hg]]]]] | Hrem].
  - rewrite Hg.
    destruct (identify_carried pds result Hid) as [Hiff Hcar].
    split; [exact Hiff | split].
    + intros carried Hc. exists pds. split; [exact Hp |].
      destruct (Hcar carried Hc) as [Hin Hcl].
      apply classify_scheduled_iff in Hcl. tauto.
    + intros _. exists pds. auto.
  - rewrite Hrem.
    pose proof (remainingScenario_carries_nothing claimData) as Hnone.
    pose proof (remainingScenario_types claimData) as Hty.
    split; [split | split].
    + intros [c Hc]. congruence.
    + intro H2. rewrite H2 in Hty. simpl in Hty.
      destruct Hty as [H | [H | [H | []]]]; discriminate H.
    + intros c Hc. congruence.
    + intro Hin. exfalso. simpl in Hin, Hty.
      destruct Hty as [H | [H | [H | []]]]; rewrite <- H in Hin;
        destruct Hin as [H' | [H' | [H' | []]]]; discriminate H'.
Qed.

Lemma continueCertifying_true (scenario : ScenarioType) (claimData : Claim) :
  continueCertifying scenario claimData = true
  <-> scenario <> Scenario5 /\ scenario <> Scenario6
      /\ truthyFlag (Claim.hasCertificationWeeksAvailable claimData) = true.
Proof.
  unfold continueCertifying.
  destruct (truthyFlag (Claim.hasCertificationWeeksAvailable claimData));
    destruct scenario; simpl; split; intro H;
    try discriminate H; try reflexivity;
    try (repeat split; discriminate);
    destruct H as [H5 [H6 Ht]]; congruence.
Qed.

(** X5.  The "continue certifying" flag that [getScenarioContent] hands to
    [getClaimStatus] is true exactly when certification weeks are available
    and the claim is in one of the scenarios 1 to 4: a pending determination
    scenario applies or [hasPendingWeeks] is true.  In the two base states it
    is false whatever the flags. *)
Theorem continueCertifying_of_getScenario (claimData : Claim) :
  continueCertifying (scenarioType (getScenario claimData)) claimData = true
  <-> Claim.hasCertificationWeeksAvailable claimData = Some true
      /\ (Claim.hasPendingWeeks claimData = Some true
          \/ exists pds result,
               Claim.pendingDetermination claimData = Some pds
               /\ identifyPendingDeterminationScenario pds = Some result).
Proof.
  rewrite continueCertifying_true.
  assert (Hflag : truthyFlag (Claim.hasCertificationWeeksAvailable claimData) = true
                  <-> Claim.hasCertificationWeeksAvailable claimData = Some true).
  { destruct (Claim.hasCertificationWeeksAvailable claimData) as [[|]|]; simpl;
      split; intro H; try reflexivity; discriminate H. }
  rewrite Hflag.
  destruct (getScenario_cases claimData) as [[pds [result [Hp [Hne [Hid Hg]]]]] | Hrem].
  - rewrite Hg. pose proof (identify_result_types pds result Hid) as Hty.
    split.
    + intros [_ [_ Hc]]. split; [exact Hc |]. right. now exists pds, result.
    + intros [Hc _]. simpl in Hty.
      destruct Hty as [H | [H | [H | []]]]; rewrite <- H;
        repeat split; try discriminate; exact Hc.
  - rewrite Hrem. unfold remainingScenario.
    destruct (Claim.hasPendingWeeks claimData) as [[|]|] eqn:Hw; simpl.
    + split.
      * intros [_ [_ Hc]]. split; [exact Hc | now left].
      * intros [Hc _]. repeat split; try discriminate; exact Hc.
    + split.
      * intros [H5 [H6 Hc]]. rewrite Hc in *. simpl in *. congruence.
      * intros [Hc [H | [pds [result [Hp Hid]]]]]; [discriminate H |].
        exfalso. revert Hrem. unfold getScenario. rewrite Hp.
        destruct pds as [|pd pds]; [discriminate Hid |]. simpl.
        rewrite Hid. intro Hrem.
        pose proof (identify_result_types _ _ Hid) as Hty.
        pose proof (remainingScenario_types claimData) as Hty'.
        rewrite <- Hrem in Hty'. simpl in Hty, Hty'.
        destruct Hty as [H | [H | [H | []]]]; rewrite <- H in Hty';
          destruct Hty' as [H' | [H' | [H' | []]]]; discriminate H'.
    + split.
      * intros [H5 [H6 Hc]]. rewrite Hc in *. simpl in *. congruence.
      * intros [Hc [H | [pds [result [Hp Hid]]]]]; [discriminate H |].
        exfalso. revert Hrem. unfold getScenario. rewrite Hp.
        destruct pds as [|pd pds]; [discriminate Hid |]. simpl.
        rewrite Hid. intro Hrem.
        pose proof (identify_result_types _ _ Hid) as Hty.
        pose proof (remainingScenario_types claimData) as Hty'.
        rewrite <- Hrem in Hty'. simpl in Hty, Hty'.
        destruct Hty as [H | [H | [H | []]]]; rewrite <- H in Hty';
          destruct Hty' as [H' | [H' | [H' | []]]]; discriminate H'.
Qed.

End ScenarioComposition.

(** * Properties of utils/queryApiGateway *)

(** ** The environment *)

Lemma append_slash_not_empty (s : string) : (s ++ "/")%string <> "".
Proof. destruct s; discriminate. Qed.

Lemma removeTrailingSlash_append (s : string) :
  removeTrailingSlash (s ++ "/")%string = s.
Proof.
  induction s as [|c s IH]; simpl.
  - reflexivity.
  - destruct (s ++ "/")%string eqn:Hs.
    + exfalso. now apply (append_slash_not_empty s).
    + now rewrite IH.
Qed.

Lemma removeTrailingSlash_unchanged (s : string) :
  (forall t, s <> (t ++ "/")%string) -> removeTrailingSlash s = s.
Proof.
  induction s as [|c s IH]; intro H; simpl.
  - reflexivity.
  - destruct s as [|c' s'].
    + destruct (Ascii.eqb c "/") eqn:Hc; [| reflexivity].
      apply Ascii.eqb_eq in Hc. subst c. exfalso. now apply (H "").
    + f_equal. apply IH. intros t Ht. apply (H (String c t)). simpl. now rewrite Ht.
Qed.

Lemma removeTrailingSlash_empty (s : string) :
  removeTrailingSlash s = "" <-> s = "" \/ s = "/".
Proof.
  split.
  - destruct s as [|c [|c' s']]; simpl.
    + now left.
    + destruct (Ascii.eqb c "/") eqn:Hc; [| discriminate].
      apply Ascii.eqb_eq in Hc. subst c. now right.
    + discriminate.
  - intros [-> | ->]; reflexivity.
Qed.

Lemma nonEmpty_true (s : string) : nonEmpty s = true <-> s <> "".
Proof. unfold nonEmpty. now rewrite negb_true_iff, String.eqb_neq. Qed.

Lemma nonEmpty_orEmpty (v : option string) :
  nonEmpty (orEmpty v) = true <-> hasText v.
Proof.
  rewrite nonEmpty_true. unfold hasText. destruct v as [s|]; simpl; split.
  - intro H. now exists s.
  - intros [s' [Hs Hne]]. now injection Hs as ->.
  - intro H. now elim H.
  - intros [s' [Hs _]]. discriminate Hs.
Qed.

Section GetApiVarsProperties.

Context {numbers : JsNumbers} {api : ApiImports}.

(** X6.  [apiUrl] is [API_URL] without one trailing slash: the URL with and
    without the slash give the same [apiUrl], and an unset variable gives the
    empty string. *)
Theorem getApiVars_apiUrl (E : Type) (env : Env) (base : string) :
  (env "API_URL" = Some (base ++ "/")%string ->
   apiUrl (fst (@getApiVars _ _ E env)) = base)
  /\ (env "API_URL" = Some base ->
      (forall t, base <> (t ++ "/")%string) ->
      apiUrl (fst (@getApiVars _ _ E env)) = base)
  /\ (env "API_URL" = None -> apiUrl (fst (@getApiVars _ _ E env)) = "").
Proof.
  unfold getApiVars. simpl. split; [| split].
  - intros ->. simpl. apply removeTrailingSlash_append.
  - intros -> H. simpl. now apply removeTrailingSlash_unchanged.
  - intros ->. reflexivity.
Qed.


Section PathJoin.

(** [path.join] never returns the empty string: an empty joined path is
    written ["."]. *)
Hypothesis pathJoin_not_empty : forall a b, pathJoin a b <> "".

(** X8.  [getApiVars] logs nothing exactly when the header name, the user key,
    the certificate directory and the certificate file are set to non-empty
    texts and [API_URL] is set to a text other than the empty string and a
    lone slash. *)
Theorem getApiVars_logs_nothing_iff (E : Type) (env : Env) :
  snd (@getApiVars _ _ E env) = []
  <-> hasText (env "ID_HEADER_NAME")
      /\ (exists url, env "API_URL" = Some url /\ url <> "" /\ url <> "/")
      /\ hasText (env "API_USER_KEY")
      /\ hasText (env "CERTIFICATE_DIR")
      /\ hasText (env "PFX_FILE").
Proof.
  rewrite <- !nonEmpty_orEmpty.
  assert (Hurl : (exists url, env "API_URL" = Some url /\ url <> "" /\ url <> "/")
                 <-> nonEmpty (removeTrailingSlash (orEmpty (env "API_URL"))) = true).
  { rewrite nonEmpty_true, removeTrailingSlash_empty.
    destruct (env "API_URL") as [u|]; simpl; split.
    - intros [url [Hu [H1 H2]]]. injection Hu as ->. tauto.
    - intro H. exists u. tauto.
    - intros [url [Hu _]]. discriminate Hu.
    - intro H. exfalso. apply H. now left. }
  rewrite Hurl. clear Hurl.
  unfold getApiVars. cbn [snd].
  cbn [filter requiredKeyMissing fst snd map].
  unfold requiredKeyMissing. cbn [fst snd].
  change (String.eqb "pfxPassphrase" "pfxPassphrase") with true.
  change (String.eqb "idHeaderName" "pfxPassphrase") with false.
  change (String.eqb "apiUrl" "pfxPassphrase") with false.
  change (String.eqb "apiUserKey" "pfxPassphrase") with false.
  change (String.eqb "pfxPath" "pfxPassphrase") with false.
  rewrite !andb_false_r, !andb_true_r.
  destruct (nonEmpty (orEmpty (env "ID_HEADER_NAME")));
    destruct (nonEmpty (removeTrailingSlash (orEmpty (env "API_URL"))));
    destruct (nonEmpty (orEmpty (env "API_USER_KEY")));
    destruct (nonEmpty (orEmpty (env "CERTIFICATE_DIR")));
    destruct (nonEmpty (orEmpty (env "PFX_FILE")));
    cbn [andb negb map fst length];
    try (assert (Hp : nonEmpty (pathJoin (orEmpty (env "CERTIFICATE_DIR"))
                                  (orEmpty (env "PFX_FILE"))) = true)
           by (apply nonEmpty_true, pathJoin_not_empty);
         rewrite Hp);
    cbn; split; intro H; try discriminate H; try tauto;
    destruct H as [H1 [H2 [H3 [H4 H5]]]]; discriminate.
Qed.

End PathJoin.

End GetApiVarsProperties.

(** ** JSON values *)

Section JsonProperties.

Context {numbers : JsNumbers}.

Lemma getProperty_setProperty_same (object : JsonObject) (key : string) (value : Json) :
  getProperty (setProperty object key value) key = Some value.
Proof.
  induction object as [|[k v] rest IH]; simpl.
  - now rewrite String.eqb_refl.
  - destruct (String.eqb k key) eqn:Hk; simpl; rewrite Hk; [reflexivity | exact IH].
Qed.

Lemma getProperty_roundTripObject (object : JsonObject) (key : string) :
  getProperty (roundTripObject object) key
  = option_map jsonRoundTrip (getProperty object key).
Proof.
  induction object as [|[k v] rest IH]; simpl.
  - reflexivity.
  - destruct (String.eqb k key); [reflexivity | exact IH].
Qed.

Lemma setProperty_twice (object : JsonObject) (key : string) (v v' : Json) :
  setProperty (setProperty object key v) key v' = setProperty object key v'.
Proof.
  induction object as [|[k x] rest IH]; simpl.
  - now rewrite String.eqb_refl.
  - destruct (String.eqb k key) eqn:Hk; simpl; rewrite Hk; [reflexivity |].
    now rewrite IH.
Qed.

Lemma roundTripObject_setProperty (object : JsonObject) (key : string) (v : Json) :
  roundTripObject (setProperty object key v)
  = setProperty (roundTripObject object) key (jsonRoundTrip v).
Proof.
  induction object as [|[k x] rest IH]; simpl.
  - reflexivity.
  - destruct (String.eqb k key); simpl; [reflexivity | now rewrite IH].
Qed.

Lemma In_setProperty (object : JsonObject) (key : string) (value : Json)
  (k : string) (v : Json) :
  In (k, v) object -> k <> key -> In (k, v) (setProperty object key value).
Proof.
  induction object as [|[k' v'] rest IH]; simpl; intros Hin Hne.
  - destruct Hin.
  - destruct (String.eqb k' key) eqn:Hk.
    + destruct Hin as [Heq | Hin].
      * injection Heq as -> ->. apply String.eqb_eq in Hk. contradiction.
      * right. exact Hin.
    + destruct Hin as [Heq | Hin]; [left; exact Heq | right; now apply IH].
Qed.

Lemma deepStrictEqual_JObject (xs ys : list (string * Json)) :
  deepStrictEqual (JObject xs) (JObject ys)
  = Nat.eqb (length xs) (length ys) && propertiesMatch ys xs.
Proof.
  simpl. f_equal.
  induction xs as [|[k x] xs IH]; simpl.
  - reflexivity.
  - now rewrite IH.
Qed.

Lemma propertiesMatch_In (ys xs : list (string * Json)) (k : string) (x : Json) :
  propertiesMatch ys xs = true ->
  In (k, x) xs ->
  exists y, getProperty ys k = Some y /\ deepStrictEqual x y = true.
Proof.
  induction xs as [|[k' x'] xs IH]; simpl; intros H Hin.
  - destruct Hin.
  - apply andb_true_iff in H. destruct H as [H1 H2].
    destruct Hin as [Heq | Hin].
    + injection Heq as -> ->.
      destruct (getProperty ys k) as [y|]; [| discriminate H1]. now exists y.
    + now apply IH.
Qed.

Lemma jsonRoundTrip_null (v : Json) :
  jsonRoundTrip v = JNull
  <-> v = JNull \/ exists n, v = JNumber n /\ numberIsFinite n = false.
Proof.
  destruct v as [| b | n | s | items | properties]; simpl; split; intro H;
    try discriminate H; try (now left);
    try (destruct H as [H | [m [H _]]]; discriminate H).
  - reflexivity.
  - destruct (numberIsFinite n) eqn:Hn; [discriminate H |].
    right. now exists n.
  - destruct H as [H | [m [H Hm]]]; [discriminate H |].
    injection H as ->. now rewrite Hm.
Qed.

Lemma strictEqualNull_roundTrip (object : JsonObject) :
  strictEqualNull (getProperty (roundTripObject object) "uniqueNumber") = true
  <-> exists u, getProperty object "uniqueNumber" = Some u /\ jsonRoundTrip u = JNull.
Proof.
  rewrite getProperty_roundTripObject.
  destruct (getProperty object "uniqueNumber") as [u|]; simpl.
  - split.
    + intro H. exists u. split; [reflexivity |].
      destruct (jsonRoundTrip u); try discriminate H. reflexivity.
    + intros [u' [Hu Hn]]. injection Hu as <-. now rewrite Hn.
  - split; [discriminate | intros [u [Hu _]]; discriminate Hu].
Qed.

Lemma deepStrictEqual_false_value (x : Json) :
  deepStrictEqual (jsonRoundTrip x) (JBool false) = true -> x = JBool false.
Proof.
  destruct x as [| b | n | s | items | properties]; simpl; try discriminate.
  - destruct b; [discriminate | reflexivity].
  - destruct (numberIsFinite n); discriminate.
Qed.

Lemma deepStrictEqual_empty_array (x : Json) :
  deepStrictEqual (jsonRoundTrip x) (JArray []) = true -> x = JArray [].
Proof.
  destruct x as [| b | n | s | items | properties]; simpl; try discriminate.
  - destruct (numberIsFinite n); discriminate.
  - destruct items; [reflexivity | discriminate].
Qed.

Lemma deepStrictEqual_some_object (x : Json) (ys : list (string * Json)) :
  deepStrictEqual (jsonRoundTrip x) (JObject ys) = true ->
  exists properties, x = JObject properties.
Proof.
  destruct x as [| b | n | s | items | properties]; simpl; try discriminate.
  - destruct (numberIsFinite n); discriminate.
  - intros _. now exists properties.
Qed.

(** What an entry of a body that matches a null-ish response looks like. *)
Lemma nullish_entry (expected : list (string * Json)) (k : string) (v y : Json) :
  JObject expected = nullishResponse \/ JObject expected = nullishResponseTmp2 ->
  k <> "uniqueNumber" ->
  getProperty expected k = Some y ->
  deepStrictEqual (jsonRoundTrip v) y = true ->
  In k nullishKeys
  /\ (k = "pendingDetermination" -> v = JArray [])
  /\ (k = "hasCertificationWeeksAvailable" -> v = JBool false)
  /\ (k = "hasValidPendingWeeks" -> v = JBool false)
  /\ (k = "isBYE" -> v = JBool false)
  /\ (k = "claimDetails" -> exists details, v = JObject details).
Proof.
  intros Hexp Hne Hget Heq.
  assert (Hcases :
            (k = "claimDetails" /\ y = nullishClaimDetails)
            \/ (k = "hasCertificationWeeksAvailable" /\ y = JBool false)
            \/ (k = "hasValidPendingWeeks" /\ y = JBool false)
            \/ (k = "isBYE" /\ y = JBool false)
            \/ (k = "pendingDetermination" /\ y = JArray [])).
  { destruct Hexp as [Hexp | Hexp]; injection Hexp as ->;
      cbn [getProperty] in Hget;
      repeat match type of Hget with
             | (if String.eqb ?a k then _ else _) = _ =>
                 let E := fresh "E" in
                 destruct (String.eqb a k) eqn:E;
                 [apply String.eqb_eq in E; injection Hget as <-; subst k | ]
             end;
      try discriminate Hget; try (exfalso; now apply Hne);
      intuition reflexivity. }
  unfold nullishKeys.
  destruct Hcases as [[-> ->] | [[-> ->] | [[-> ->] | [[-> ->] | [-> ->]]]]];
    (split; [simpl; tauto |]);
    repeat split; intro Hk; try discriminate Hk.
  - now apply deepStrictEqual_some_object in Heq.
  - now apply deepStrictEqual_false_value.
  - now apply deepStrictEqual_false_value.
  - now apply deepStrictEqual_false_value.
  - now apply deepStrictEqual_empty_array.
Qed.

Lemma reponseIsNullish_when_null (apiBody : JsonObject) (u : Json) :
  getProperty apiBody "uniqueNumber" = Some u ->
  jsonRoundTrip u = JNull ->
  reponseIsNullish apiBody = true.
Proof.
  intros H Hu. unfold reponseIsNullish.
  assert (Hn : strictEqualNull (getProperty (roundTripObject apiBody) "uniqueNumber") = true).
  { apply strictEqualNull_roundTrip. now exists u. }
  now rewrite Hn.
Qed.

(** X9.  A response whose [uniqueNumber] is [null] is null-ish whatever else it
    carries: the claim data of such a response is never looked at. *)
Theorem reponseIsNullish_null_uniqueNumber (apiBody : JsonObject) :
  getProperty apiBody "uniqueNumber" = Some JNull ->
  reponseIsNullish apiBody = true.
Proof.
  intro H. now apply (reponseIsNullish_when_null apiBody JNull).
Qed.

(** X10.  A response that is found null-ish has a [uniqueNumber] that is [null]
    (or a number that JSON writes as [null]), or it carries no claim at all:
    it has no key beyond those of the null-ish responses, its
    [pendingDetermination] is the empty array, its three flags are [false] and
    its [claimDetails] is an object. *)
Theorem reponseIsNullish_carries_nothing (apiBody : JsonObject) :
  reponseIsNullish apiBody = true ->
  getProperty apiBody "uniqueNumber" = Some JNull
  \/ (exists n, getProperty apiBody "uniqueNumber" = Some (JNumber n)
                /\ numberIsFinite n = false)
  \/ (forall k v,
        In (k, v) apiBody ->
        In k nullishKeys
        /\ (k = "pendingDetermination" -> v = JArray [])
        /\ (k = "hasCertificationWeeksAvailable" -> v = JBool false)
        /\ (k = "hasValidPendingWeeks" -> v = JBool false)
        /\ (k = "isBYE" -> v = JBool false)
        /\ (k = "claimDetails" -> exists details, v = JObject details)).
Proof.
  unfold reponseIsNullish.
  destruct (strictEqualNull (getProperty (roundTripObject apiBody) "uniqueNumber")) eqn:Hn.
  - intros _. apply strictEqualNull_roundTrip in Hn.
    destruct Hn as [u [Hu Hnull]]. apply jsonRoundTrip_null in Hnull.
    destruct Hnull as [-> | [n [-> Hfin]]]; [now left | right; left; now exists n].
  - intro H. right. right.
    assert (Hmatch : exists expected,
               (JObject expected = nullishResponse \/ JObject expected = nullishResponseTmp2)
               /\ propertiesMatch expected
                    (setProperty (roundTripObject apiBody) "uniqueNumber" JNull) = true).
    { set (response := setProperty (roundTripObject apiBody) "uniqueNumber" JNull) in *.
      destruct (deepStrictEqual (JObject response) nullishResponse) eqn:H1.
      - unfold nullishResponse in H1. rewrite deepStrictEqual_JObject in H1.
        apply andb_true_iff in H1. eexists. split; [left; reflexivity | apply H1].
      - destruct (deepStrictEqual (JObject response) nullishResponseTmp1) eqn:H2.
        + unfold nullishResponseTmp1 in H2. rewrite deepStrictEqual_JObject in H2.
          apply andb_true_iff in H2. eexists. split; [left; reflexivity | apply H2].
        + destruct (deepStrictEqual (JObject response) nullishResponseTmp2) eqn:H3;
            [| discriminate H].
          unfold nullishResponseTmp2 in H3. rewrite deepStrictEqual_JObject in H3.
          apply andb_true_iff in H3. eexists. split; [right; reflexivity | apply H3]. }
    destruct Hmatch as [expected [Hexp Hprops]].
    intros k v Hin.
    destruct (String.eqb k "uniqueNumber") eqn:Hk.
    + apply String.eqb_eq in Hk. subst k. unfold nullishKeys.
      split; [simpl; tauto |]. repeat split; intro Hk; discriminate Hk.
    + apply String.eqb_neq in Hk.
      assert (Hin' : In (k, jsonRoundTrip v)
                       (setProperty (roundTripObject apiBody) "uniqueNumber" JNull)).
      { apply In_setProperty; [| exact Hk].
        unfold roundTripObject.
        apply (in_map (fun kv => (fst kv, jsonRoundTrip (snd kv))) _ _ Hin). }
      destruct (propertiesMatch_In _ _ _ _ Hprops Hin') as [y [Hy Heq]].
      exact (nullish_entry expected k v y Hexp Hk Hy Heq).
Qed.

(** X11.  A [uniqueNumber] that is not [null] plays no part: putting any other
    value that is not [null] in its place, or adding one where there was none,
    does not change the answer. *)
Theorem reponseIsNullish_ignores_uniqueNumber (apiBody : JsonObject) (value : Json) :
  jsonRoundTrip value <> JNull ->
  (forall u, getProperty apiBody "uniqueNumber" = Some u -> jsonRoundTrip u <> JNull) ->
  reponseIsNullish (setProperty apiBody "uniqueNumber" value) = reponseIsNullish apiBody.
Proof.
  intros Hv Hu. unfold reponseIsNullish.
  rewrite roundTripObject_setProperty, getProperty_setProperty_same, setProperty_twice.
  assert (H1 : strictEqualNull (Some (jsonRoundTrip value)) = false).
  { simpl. destruct (jsonRoundTrip value); try reflexivity. now elim Hv. }
  assert (H2 : strictEqualNull (getProperty (roundTripObject apiBody) "uniqueNumber") = false).
  { destruct (strictEqualNull (getProperty (roundTripObject apiBody) "uniqueNumber")) eqn:E;
      [| reflexivity].
    apply strictEqualNull_roundTrip in E. destruct E as [u [Hget Hnull]].
    exfalso. exact (Hu u Hget Hnull). }
  now rewrite H1, H2.
Qed.

(** X12.  The null-ish responses are recognised with any [uniqueNumber] in them. *)
Theorem reponseIsNullish_recognises (properties : JsonObject) (value : Json) :
  JObject properties = nullishResponse
  \/ JObject properties = nullishResponseTmp1
  \/ JObject properties = nullishResponseTmp2 ->
  reponseIsNullish (setProperty properties "uniqueNumber" value) = true.
Proof.
  intro H. unfold reponseIsNullish.
  rewrite roundTripObject_setProperty, getProperty_setProperty_same, setProperty_twice.
  destruct (strictEqualNull (Some (jsonRoundTrip value))); [reflexivity |].
  destruct H as [H | [H | H]]; injection H as ->; reflexivity.
Qed.

End JsonProperties.

(** ** The query *)

Section QueryApiGatewayProperties.

Context {numbers : JsNumbers} {api : ApiImports}.

Lemma jsonTruthy_false (v : option Json) :
  jsonTruthy v = false
  <-> v = None \/ v = Some JNull \/ v = Some (JBool false) \/ v = Some (JString "")
      \/ exists n, v = Some (JNumber n) /\ numberTruthy n = false.
Proof.
  destruct v as [[| b | n | s | items | properties]|]; simpl; split; intro H;
    try discriminate H; try tauto.
  - subst b. tauto.
  - destruct H as [H | [H | [H | [H | [m [H _]]]]]]; try discriminate H.
    now injection H as ->.
  - do 4 right. now exists n.
  - destruct H as [H | [H | [H | [H | [m [H Hm]]]]]]; try discriminate H.
    injection H as ->. exact Hm.
  - unfold nonEmpty in H. apply negb_false_iff, String.eqb_eq in H. subst s. tauto.
  - destruct H as [H | [H | [H | [H | [m [H _]]]]]]; try discriminate H.
    now injection H as ->.
  - destruct H as [H | [H | [H | [H | [m [H _]]]]]]; discriminate H.
  - destruct H as [H | [H | [H | [H | [m [H _]]]]]]; discriminate H.
Qed.

Lemma notStrictEqualString_false (v : option Json) (s : string) :
  notStrictEqualString v s = false <-> v = Some (JString s).
Proof.
  destruct v as [[| b | n | x | items | properties]|]; simpl; split; intro H;
    try discriminate H.
  - apply negb_false_iff, String.eqb_eq in H. now subst x.
  - injection H as ->. now rewrite String.eqb_refl.
Qed.

(** What the final checks let through. *)
Lemma checkApiData_Ok (apiData : option JsonObject) (queried : string)
  (returned : JsonObject) :
  checkApiData apiData queried = Ok returned ->
  apiData = Some returned
  /\ reponseIsNullish returned = false
  /\ (getProperty returned "uniqueNumber" = Some (JString queried)
      \/ jsonTruthy (getProperty returned "uniqueNumber") = false).
Proof.
  unfold checkApiData. destruct apiData as [body|]; [| discriminate].
  destruct (jsonTruthy (getProperty body "uniqueNumber")) eqn:Ht; simpl.
  - destruct (notStrictEqualString (getProperty body "uniqueNumber") queried) eqn:Hs;
      [discriminate |].
    destruct (reponseIsNullish body) eqn:Hn; [discriminate |].
    intro H. injection H as <-. apply notStrictEqualString_false in Hs. auto.
  - destruct (reponseIsNullish body) eqn:Hn; [discriminate |].
    intro H. injection H as <-. auto.
Qed.

Lemma queryApiGateway_Ok (env : Env) (queried : string)
  (logs : list (LogCall ApiError)) (apiData : JsonObject) :
  queryApiGateway env queried = (logs, Ok apiData) ->
  logs = snd (getApiVars (E := ApiError) env)
  /\ reponseIsNullish apiData = false
  /\ (getProperty apiData "uniqueNumber" = Some (JString queried)
      \/ getProperty apiData "uniqueNumber" = None
      \/ getProperty apiData "uniqueNumber" = Some (JString "")
      \/ getProperty apiData "uniqueNumber" = Some (JBool false)
      \/ exists n, getProperty apiData "uniqueNumber" = Some (JNumber n)
                   /\ numberTruthy n = false).
Proof.
  unfold queryApiGateway.
  destruct (getApiVars (E := ApiError) env) as [apiEnvVars logs0]. cbn [snd].
  destruct (readFileSync (pfxPath apiEnvVars)) as [pfx | e]; [| discriminate].
  destruct (buildApiUrl _ _) as [url | e]; [| discriminate].
  destruct (fetchApiData _ _) as [data | e]; [| discriminate].
  destruct (checkApiData data queried) as [returned | e] eqn:Hcheck; [| discriminate].
  intro H. injection H as <- <-.
  apply checkApiData_Ok in Hcheck. destruct Hcheck as [_ [Hn Hu]].
  split; [reflexivity | split; [exact Hn |]].
  destruct Hu as [Hu | Hu]; [now left |].
  apply jsonTruthy_false in Hu.
  destruct Hu as [Hu | [Hu | [Hu | [Hu | Hu]]]]; try tauto.
  exfalso. rewrite (reponseIsNullish_when_null returned JNull Hu eq_refl) in Hn.
  discriminate Hn.
Qed.

(** X13.  When [queryApiGateway] returns claim data, it has logged nothing of its
    own, the data is not null-ish, and its [uniqueNumber] is the one that was
    asked for, or else is missing, the empty string, [false] or a falsy
    number: it is never [null], and never another text. *)
Theorem queryApiGateway_returned_data (env : Env) (queried : string)
  (logs : list (LogCall ApiError)) (apiData : JsonObject) :
  queryApiGateway env queried = (logs, Ok apiData) ->
  logs = snd (getApiVars (E := ApiError) env)
  /\ reponseIsNullish apiData = false
  /\ (getProperty apiData "uniqueNumber" = Some (JString queried)
      \/ getProperty apiData "uniqueNumber" = None
      \/ getProperty apiData "uniqueNumber" = Some (JString "")
      \/ getProperty apiData "uniqueNumber" = Some (JBool false)
      \/ exists n, getProperty apiData "uniqueNumber" = Some (JNumber n)
                   /\ numberTruthy n = false).
Proof. apply queryApiGateway_Ok. Qed.

(** X14.  Every error that [queryApiGateway] throws is logged once, at level
    [error] and with the error itself, before it is thrown; the one exception
    is an error of [buildApiUrl], which is thrown without a log.  A call that
    returns logs nothing beyond what [getApiVars] logs. *)
Theorem queryApiGateway_logs (env : Env) (queried : string) :
  (forall apiData,
     snd (queryApiGateway env queried) = Ok apiData ->
     fst (queryApiGateway env queried) = snd (getApiVars (E := ApiError) env))
  /\ (forall error,
        snd (queryApiGateway env queried) = Throw error ->
        (exists message,
           In message ["Read certificate error"; "API gateway error";
                       "Unexpected API gateway response"]
           /\ fst (queryApiGateway env queried)
              = snd (getApiVars (E := ApiError) env) ++ [mkLogCall "error" (ErrorObject error) message])
        \/ (fst (queryApiGateway env queried) = snd (getApiVars (E := ApiError) env)
            /\ exists thrown,
                 error = LibraryError thrown
                 /\ buildApiUrl (apiUrl (fst (getApiVars (E := ApiError) env)))
                      (mkQueryParams (apiUserKey (fst (getApiVars (E := ApiError) env))) queried)
                    = Throw thrown)).
Proof.
  unfold queryApiGateway.
  destruct (getApiVars (E := ApiError) env) as [apiEnvVars logs0]. cbn [fst snd].
  destruct (readFileSync (pfxPath apiEnvVars)) as [pfx | e].
  - destruct (buildApiUrl _ _) as [url | e] eqn:Hurl.
    + destruct (fetchApiData _ _) as [data | e].
      * destruct (checkApiData data queried) as [returned | e]; cbn [fst snd]; split.
        -- reflexivity.
        -- discriminate.
        -- discriminate.
        -- intros error H. injection H as <-. left.
           exists "Unexpected API gateway response". split; [simpl; tauto | reflexivity].
      * cbn [fst snd]. split; [discriminate |].
        intros error H. injection H as <-. left.
        exists "API gateway error". split; [simpl; tauto | reflexivity].
    + cbn [fst snd]. split; [discriminate |].
      intros error H. injection H as <-. right.
      split; [reflexivity |]. now exists e.
  - cbn [fst snd]. split; [discriminate |].
    intros error H. injection H as <-. left.
    exists "Read certificate error". split; [simpl; tauto | reflexivity].
Qed.

End QueryApiGatewayProperties.

(** * Properties of pages/index *)

Section PageProperties.

Context {numbers : JsNumbers} {api : ApiImports} {dateTime : DateTimeImports}
  {content : ContentImports} {page : PageImports}.

Local Abbreviation Content := (ScenarioContent ClaimStatusContent ClaimDetailsContent).

(** The three things a run decides together. *)
Lemma getServerSideProps_decision (env : Env) (from : JsString)
  (headers : string -> JsString) (locale : JsString) (initialized : Result string unit) :
  let run := getServerSideProps env from headers locale initialized in
  (errorCode (props run) = Some 500
   /\ scenarioContent (props run) = None
   /\ statusCode run = Some 500
   /\ ~ (exists queried logs claimData scenario,
           fst (getUniqueNumber (E := AppError ApiError) env headers) = Some queried
           /\ queried <> ""
           /\ queryApiGateway env queried = (logs, Ok claimData)
           /\ getScenarioContent (asClaim claimData) = Returned scenario))
  \/ (errorCode (props run) = None
      /\ statusCode run = None
      /\ exists queried logs claimData scenario,
           fst (getUniqueNumber (E := AppError ApiError) env headers) = Some queried
           /\ queried <> ""
           /\ queryApiGateway env queried = (logs, Ok claimData)
           /\ getScenarioContent (asClaim claimData) = Returned scenario
           /\ scenarioContent (props run) = Some scenario).
Proof.
  unfold getServerSideProps.
  destruct (getUniqueNumber (E := AppError ApiError) env headers) as [uniqueNumber apiVarsLog].
  cbn [fst].
  destruct (truthy uniqueNumber) eqn:Hu; cbn [negb].
  - apply truthy_true_iff in Hu. destruct Hu as [queried [-> Hne]]. cbn [orEmpty].
    destruct (queryApiGateway env queried) as [queryLog [claimData | error]] eqn:Hq.
    + destruct (getScenarioContent (asClaim claimData)) as [scenario | message] eqn:Hc.
      * right. cbn [props errorCode scenarioContent statusCode truthyCode]. repeat split.
        exists queried, queryLog, claimData, scenario. auto.
      * left. cbn [props errorCode scenarioContent statusCode truthyCode Z.eqb negb]. repeat split.
        intros [q [l [d [s [Hq1 [_ [Hq2 Hq3]]]]]]].
        injection Hq1 as Heq. subst q. rewrite Hq in Hq2.
        injection Hq2 as Hl Hd. subst d. rewrite Hc in Hq3. discriminate Hq3.
    + left. cbn [props errorCode scenarioContent statusCode truthyCode Z.eqb negb]. repeat split.
      intros [q [l [d [s [Hq1 [_ [Hq2 _]]]]]]].
      injection Hq1 as Heq. subst q. rewrite Hq in Hq2. discriminate Hq2.
  - left. cbn [props errorCode scenarioContent statusCode truthyCode Z.eqb negb]. repeat split.
    intros [q [l [d [s [Hq1 [Hne _]]]]]]. subst uniqueNumber.
    simpl in Hu. apply negb_false_iff, String.eqb_eq in Hu. contradiction.
Qed.

(** X15.  The props of every run are consistent: [errorCode] is [null] or 500;
    [scenarioContent] is [null] exactly when [errorCode] is 500; the status
    code of the response is set exactly then, to 500.  The error code is
    [null] exactly when the request has a non-empty unique number,
    [queryApiGateway] returns claim data for it and [getScenarioContent]
    returns content for that data, which is then the [scenarioContent]. *)
Theorem getServerSideProps_consistent (env : Env) (from : JsString)
  (headers : string -> JsString) (locale : JsString) (initialized : Result string unit) :
  let run := getServerSideProps env from headers locale initialized in
  (errorCode (props run) = None \/ errorCode (props run) = Some 500)
  /\ (scenarioContent (props run) = None <-> errorCode (props run) = Some 500)
  /\ statusCode run = errorCode (props run)
  /\ (errorCode (props run) = None
      <-> exists queried logs claimData scenario,
            fst (getUniqueNumber (E := AppError ApiError) env headers) = Some queried
            /\ queried <> ""
            /\ queryApiGateway env queried = (logs, Ok claimData)
            /\ getScenarioContent (asClaim claimData) = Returned scenario
            /\ scenarioContent (props run) = Some scenario).
Proof.
  intro run.
  destruct (getServerSideProps_decision env from headers locale initialized)
    as [[He [Hs [Hc Hnot]]] | [He [Hc [q [l [d [s [H1 [H2 [H3 [H4 H5]]]]]]]]]]];
    fold run in He, Hc; try fold run in Hs; try fold run in H5.
  - split; [now right |]. split; [tauto |]. split; [congruence |].
    split; [intro H; congruence |].
    intros [q [l [d [s [H1 [H2 [H3 [H4 _]]]]]]]]. exfalso. apply Hnot.
    now exists q, l, d, s.
  - split; [now left |]. split; [| split; [congruence |]].
    + split; intro H; congruence.
    + split; [| intros _; exact He].
      intros _. now exists q, l, d, s.
Qed.

(** X16.  [Home] never fails on the props of [getServerSideProps].  It shows the
    maintenance page whenever [ENABLE_MAINTENANCE_PAGE] is a non-empty text;
    otherwise the error page, always with [userArrivedFromUioMobile] true,
    when the run ended in an error; otherwise the claim with the content of
    [getScenarioContent].  The scenario sent to Google Analytics is ["None"],
    and is sent exactly when [ENABLE_GOOGLE_ANALYTICS] is ["enabled"]. *)
Theorem Home_of_getServerSideProps (env : Env) (from : JsString)
  (headers : string -> JsString) (locale : JsString) (initialized : Result string unit) :
  let run := getServerSideProps env from headers locale initialized in
  exists rendered,
    Home (props run) = Returned rendered
    /\ (hasText (env "ENABLE_MAINTENANCE_PAGE") -> mainContent rendered = MaintenancePage)
    /\ (~ hasText (env "ENABLE_MAINTENANCE_PAGE") ->
        errorCode (props run) = Some 500 ->
        mainContent rendered = ErrorPage true)
    /\ (~ hasText (env "ENABLE_MAINTENANCE_PAGE") ->
        errorCode (props run) = None ->
        exists scenario,
          scenarioContent (props run) = Some scenario
          /\ mainContent rendered
             = ClaimPage (match from with
                          | Some text => String.eqb text "uiom"
                          | None => false
                          end)
                 (statusContent scenario) (detailsContent scenario))
    /\ (googleAnalytics rendered = Some "None"
        <-> env "ENABLE_GOOGLE_ANALYTICS" = Some "enabled")
    /\ (googleAnalytics rendered = None
        <-> env "ENABLE_GOOGLE_ANALYTICS" <> Some "enabled").
Proof.
  intro run.
  assert (Hm : enableMaintenancePage (props run) = orEmpty (env "ENABLE_MAINTENANCE_PAGE")).
  { unfold run, getServerSideProps.
    destruct (getUniqueNumber (E := AppError ApiError) env headers) as [u l].
    destruct (if negb (truthy u) then _ else _) as [[e s] lg]. reflexivity. }
  assert (Hg : enableGoogleAnalytics (props run) = orEmpty (env "ENABLE_GOOGLE_ANALYTICS")).
  { unfold run, getServerSideProps.
    destruct (getUniqueNumber (E := AppError ApiError) env headers) as [u l].
    destruct (if negb (truthy u) then _ else _) as [[e s] lg]. reflexivity. }
  assert (Hf : userArrivedFromUioMobile (props run)
               = match from with
                 | Some text => String.eqb text "uiom"
                 | None => false
                 end).
  { unfold run, getServerSideProps.
    destruct (getUniqueNumber (E := AppError ApiError) env headers) as [u l].
    destruct (if negb (truthy u) then _ else _) as [[e s] lg]. reflexivity. }
  assert (Hga : forall v : option string,
             ((if String.eqb (orEmpty v) "enabled" then Some "None" else None) = Some "None"
              <-> v = Some "enabled")
             /\ ((if String.eqb (orEmpty v) "enabled" then Some "None" else None) = None
                 <-> v <> Some "enabled")).
  { intro v. destruct (String.eqb (orEmpty v) "enabled") eqn:E.
    - apply String.eqb_eq in E.
      assert (Hv : v = Some "enabled").
      { destruct v as [s|]; simpl in E; [now subst s | discriminate E]. }
      subst v. split; split; intro H; try reflexivity; try discriminate H.
      now elim H.
    - apply String.eqb_neq in E.
      assert (Hv : v <> Some "enabled") by (intros ->; now apply E).
      split; split; intro H; try discriminate H; try reflexivity;
        try assumption; contradiction. }
  pose proof (getServerSideProps_decision env from headers locale initialized) as Hd.
  fold run in Hd.
  unfold Home. rewrite Hm, Hg, Hf. unfold scenarioName.
  destruct (nonEmpty (orEmpty (env "ENABLE_MAINTENANCE_PAGE"))) eqn:Hmaint.
  - eexists. split; [reflexivity |]. cbn [mainContent googleAnalytics].
    apply nonEmpty_orEmpty in Hmaint.
    split; [reflexivity |].
    split; [intro H; contradiction |]. split; [intro H; contradiction |].
    apply Hga.
  - assert (Hno : ~ hasText (env "ENABLE_MAINTENANCE_PAGE")).
    { intro H. apply nonEmpty_orEmpty in H. congruence. }
    destruct Hd as [[He [Hs _]] | [He [_ [q [l [d [s [_ [_ [_ [_ Hs]]]]]]]]]]];
      rewrite He; cbn [truthyCode Z.eqb negb].
    + eexists. split; [reflexivity |]. cbn [mainContent googleAnalytics].
      split; [intro H; contradiction |].
      split; [reflexivity |]. split; [intros _ H; discriminate H |].
      apply Hga.
    + rewrite Hs. eexists. split; [reflexivity |]. cbn [mainContent googleAnalytics].
      split; [intro H; contradiction |].
      split; [intros _ H; discriminate H |].
      split; [intros _ _; now exists s |].
      apply Hga.
Qed.

(** X17.  The page shows a claim only for the number it was asked for: when a run
    ends without error, the request had a non-empty unique number, the data
    behind the content carries that number or none that counts (missing,
    empty, [false] or a falsy number), the data is not null-ish and has
    [claimDetails]. *)
Theorem getServerSideProps_shows_requested_claim (env : Env) (from : JsString)
  (headers : string -> JsString) (locale : JsString) (initialized : Result string unit) :
  errorCode (props (getServerSideProps env from headers locale initialized)) = None ->
  exists queried claimData,
    fst (getUniqueNumber (E := AppError ApiError) env headers) = Some queried
    /\ queried <> ""
    /\ snd (queryApiGateway env queried) = Ok claimData
    /\ reponseIsNullish claimData = false
    /\ (getProperty claimData "uniqueNumber" = Some (JString queried)
        \/ getProperty claimData "uniqueNumber" = None
        \/ getProperty claimData "uniqueNumber" = Some (JString "")
        \/ getProperty claimData "uniqueNumber" = Some (JBool false)
        \/ exists n, getProperty claimData "uniqueNumber" = Some (JNumber n)
                     /\ numberTruthy n = false)
    /\ Claim.claimDetails (asClaim claimData) <> None.
Proof.
  intro He.
  destruct (getServerSideProps_decision env from headers locale initialized)
    as [[He' _] | [_ [_ [q [l [d [s [H1 [H2 [H3 [H4 _]]]]]]]]]]].
  - rewrite He in He'. discriminate He'.
  - exists q, d.
    destruct (queryApiGateway_Ok env q l d H3) as [_ [Hn Hu]].
    split; [exact H1 | split; [exact H2 |]].
    split; [now rewrite H3 |]. split; [exact Hn | split; [exact Hu |]].
    intro Hnone. unfold getScenarioContent in H4. rewrite Hnone in H4.
    discriminate H4.
Qed.

End PageProperties.

(** ** The health probe *)

Section HealthProbe.

Context {numbers : JsNumbers} {api : ApiImports} {dateTime : DateTimeImports}
  {content : ContentImports} {page : PageImports}.

Lemma getApiVars_log_objects (E : Type) (env : Env) (call : LogCall E) :
  In call (snd (getApiVars env)) -> exists names, logObject call = MissingEnvVars names.
Proof.
  unfold getApiVars. cbn [snd].
  destruct (0 <? Z.of_nat (length _)); intro H.
  - destruct H as [<- | []]. eexists. reflexivity.
  - destruct H.
Qed.

Lemma queryApiGateway_log_objects (env : Env) (queried : string) (call : LogCall ApiError) :
  In call (fst (queryApiGateway env queried)) -> logObject call <> OtherObject.
Proof.
  unfold queryApiGateway.
  pose proof (getApiVars_log_objects ApiError env) as Hvars.
  destruct (getApiVars env) as [apiEnvVars logs0]. cbn [snd] in Hvars.
  assert (Hsnoc : forall error message,
             In call (logs0 ++ [mkLogCall "error" (ErrorObject error) message]) ->
             logObject call <> OtherObject).
  { intros error message Hin. apply in_app_or in Hin.
    destruct Hin as [Hin | [<- | []]].
    - destruct (Hvars call Hin) as [names ->]. discriminate.
    - discriminate. }
  assert (Hlogs0 : In call logs0 -> logObject call <> OtherObject).
  { intro Hin. destruct (Hvars call Hin) as [names ->]. discriminate. }
  destruct (readFileSync (pfxPath apiEnvVars)) as [pfx | e]; cbn [fst].
  - destruct (buildApiUrl _ _) as [url | e]; cbn [fst]; [| exact Hlogs0].
    destruct (fetchApiData _ _) as [data | e]; cbn [fst]; [| apply Hsnoc].
    destruct (checkApiData data queried) as [returned | e]; cbn [fst];
      [exact Hlogs0 | apply Hsnoc].
  - apply Hsnoc.
Qed.

(** X18.  The error ["Missing unique number"] is logged exactly when the request
    has no unique number (the header is missing or empty) and does not come
    from the health probe: the probe's user agent is the only one for which
    the missing number is passed over in silence. *)
Theorem getServerSideProps_missing_number_log (env : Env) (from : JsString)
  (headers : string -> JsString) (locale : JsString) (initialized : Result string unit) :
  In (mkLogCall "error" OtherObject "Missing unique number")
     (logCalls (getServerSideProps env from headers locale initialized))
  <-> absentOrEmpty (fst (getUniqueNumber (E := AppError ApiError) env headers))
      /\ headers "user-agent" <> Some "Edge Health Probe".
Proof.
  rewrite absentOrEmpty_truthy.
  unfold getServerSideProps.
  pose proof (getApiVars_log_objects (AppError ApiError) env) as Hvars.
  unfold getUniqueNumber in *.
  destruct (getApiVars env) as [apiEnvVars apiVarsLog]. cbn [fst snd] in *.
  set (uniqueNumber := headers (toLowerCase (idHeaderName apiEnvVars))).
  assert (Hnot_vars : ~ In (mkLogCall "error" OtherObject "Missing unique number")
                          apiVarsLog).
  { intro Hin. destruct (Hvars _ Hin) as [names Hn]. discriminate Hn. }
  assert (Hnot_query : forall queried,
             ~ In (mkLogCall "error" OtherObject "Missing unique number")
                  (map liftLogCall (fst (queryApiGateway env queried)))).
  { intros queried Hin. apply in_map_iff in Hin. destruct Hin as [call [Hcall Hin]].
    apply queryApiGateway_log_objects in Hin.
    unfold liftLogCall in Hcall. destruct (logObject call); try discriminate Hcall.
    now apply Hin. }
  destruct (truthy uniqueNumber) eqn:Hu; cbn [negb].
  - split; [| intros [H _]; discriminate H].
    intro Hin. exfalso.
    pose proof (Hnot_query (orEmpty uniqueNumber)) as Hq.
    destruct (queryApiGateway env (orEmpty uniqueNumber)) as [queryLog [claimData | error]];
      cbn [fst] in Hq.
    + destruct (getScenarioContent (asClaim claimData)); cbn [logCalls] in Hin;
        repeat (apply in_app_or in Hin; destruct Hin as [Hin | Hin]);
        try (now apply Hnot_vars); try (now apply Hq);
        simpl in Hin; destruct Hin as [Hin | [Hin | [Hin | []]]] || destruct Hin as [Hin | [Hin | []]] || destruct Hin as [Hin | []];
        discriminate Hin.
    + cbn [logCalls] in Hin.
      repeat (apply in_app_or in Hin; destruct Hin as [Hin | Hin]);
        try (now apply Hnot_vars); try (now apply Hq);
        simpl in Hin; destruct Hin as [Hin | []]; discriminate Hin.
  - cbn [logCalls]. split.
    + intro Hin. split; [reflexivity |].
      intro Hagent. rewrite Hagent in Hin. simpl in Hin.
      rewrite app_nil_r in Hin.
      destruct Hin as [Hin | Hin]; [discriminate Hin | now apply Hnot_vars].
    + intros [_ Hagent].
      apply in_or_app. right. apply in_or_app. right.
      destruct (headers "user-agent") as [agent|]; [| now left].
      destruct (String.eqb agent "Edge Health Probe") eqn:E; [| now left].
      apply String.eqb_eq in E. subst agent. now elim Hagent.
Qed.

End HealthProbe.

(** * Properties of components/TransLine *)

Lemma prefix_iff (p s : string) :
  String.prefix p s = true <-> exists rest, s = (p ++ rest)%string.
Proof.
  revert s. induction p as [|c p IH]; intro s.
  - split; [intros _; now exists s | intros _; now destruct s].
  - destruct s as [|c' s]; simpl.
    + split; [discriminate | intros [rest H]; discriminate H].
    + destruct (ascii_dec c c') as [<- | Hne].
      * rewrite IH. split; intros [rest H]; exists rest.
        -- now rewrite H.
        -- now injection H.
      * split; [discriminate |]. intros [rest H]. injection H as H1 _.
        now elim Hne.
Qed.

Section TransLineProperties.

Context {transLine : TransLineImports}.

Lemma internalLink_iff (link : string) :
  internalLink link = true
  <-> exists rest, link = ("uio-" ++ rest)%string \/ link = ("bpo-" ++ rest)%string.
Proof.
  unfold internalLink. rewrite orb_true_iff, !prefix_iff. split.
  - intros [[rest H] | [rest H]]; exists rest; auto.
  - intros [rest [H | H]]; [left | right]; now exists rest.
Qed.

(** X19.  When it is not loading, [TransLine] gives one anchor for each link, in
    the order of the links, with the link as key and the resolved URL as
    [href].  A link that starts with [uio-] or [bpo-] opens in the same tab;
    every other link opens in a new tab, and every anchor that opens in a new
    tab carries [rel="noopener noreferrer"]. *)
Theorem TransLine_anchors (userArrivedFromUioMobile : bool) (i18nKey : string)
  (links : list string) :
  exists anchors,
    TransLine false userArrivedFromUioMobile i18nKey links = Trans i18nKey anchors
    /\ map key anchors = links
    /\ forall anchor,
         In anchor anchors ->
         href anchor = resolveUrl (key anchor) userArrivedFromUioMobile
         /\ ((exists rest, key anchor = ("uio-" ++ rest)%string
                           \/ key anchor = ("bpo-" ++ rest)%string) ->
             target anchor = None /\ rel anchor = None)
         /\ (~ (exists rest, key anchor = ("uio-" ++ rest)%string
                             \/ key anchor = ("bpo-" ++ rest)%string) ->
             target anchor = Some "_blank")
         /\ (target anchor = Some "_blank" -> rel anchor = Some "noopener noreferrer").
Proof.
  exists (map (linkComponent userArrivedFromUioMobile) links).
  split; [| split].
  - unfold TransLine. destruct links as [|l ls]; [reflexivity |].
    now change (0 <? Z.of_nat (length (l :: ls))) with true.
  - rewrite map_map. rewrite <- (map_id links) at 2. apply map_ext.
    intro link. unfold linkComponent. now destruct (internalLink link).
  - intros anchor Hin. apply in_map_iff in Hin. destruct Hin as [link [<- _]].
    unfold linkComponent.
    destruct (internalLink link) eqn:Hi; cbn [href key target rel].
    + split; [reflexivity |]. split; [auto |].
      split; [| discriminate].
      intro Hno. exfalso. apply Hno. now apply internalLink_iff.
    + split; [reflexivity |]. split; [| auto].
      intro Hyes. apply internalLink_iff in Hyes. congruence.
Qed.

(** The home page of UIO is the one link that is not translated, and only
    when a URL is configured for the way the user arrived; every other link,
    and the home page without a configured URL, goes through [t]. *)
Theorem resolveUrl_cases (link : string) (userArrivedFromUioMobile : bool) :
  (link <> "uio-home" -> resolveUrl link userArrivedFromUioMobile = t link)
  /\ (forall url,
        getUrl (if userArrivedFromUioMobile
                then "uio-mobile-home-url"
                else "uio-desktop-home-url") = Some url ->
        url <> "" ->
        resolveUrl "uio-home" userArrivedFromUioMobile = url)
  /\ (absentOrEmpty (getUrl (if userArrivedFromUioMobile
                             then "uio-mobile-home-url"
                             else "uio-desktop-home-url")) ->
      resolveUrl "uio-home" userArrivedFromUioMobile = t "uio-home").
Proof.
  unfold resolveUrl. split; [| split].
  - intro H. apply String.eqb_neq in H. now rewrite H.
  - intros url Hurl Hne. rewrite String.eqb_refl.
    destruct userArrivedFromUioMobile; rewrite Hurl; simpl;
      apply String.eqb_neq in Hne; now rewrite Hne.
  - intro H. rewrite String.eqb_refl. apply absentOrEmpty_truthy in H.
    destruct userArrivedFromUioMobile; now rewrite H.
Qed.

End TransLineProperties.

(** * The further properties at sample inputs *)

Lemma identify_scenarioType_Permutation_witness :
  Permutation [requestedOnly; scheduledMay20; interviewedApril1]
              [interviewedApril1; requestedOnly; scheduledMay20]
  /\ option_map scenarioType
       (@identifyPendingDeterminationScenario sampleImports
          [requestedOnly; scheduledMay20; interviewedApril1])
     = option_map scenarioType
         (@identifyPendingDeterminationScenario sampleImports
            [interviewedApril1; requestedOnly; scheduledMay20]).
Proof.
  assert (H : Permutation [requestedOnly; scheduledMay20; interviewedApril1]
                          [interviewedApril1; requestedOnly; scheduledMay20]).
  { apply Permutation_sym.
    apply (Permutation_cons_app [requestedOnly; scheduledMay20] [] interviewedApril1).
    rewrite app_nil_r. apply Permutation_refl. }
  split; [exact H |].
  exact (@identify_scenarioType_Permutation sampleImports _ _ H).
Defined.


Lemma sampleApi_pathJoin_not_empty (a b : string) : @pathJoin sampleNumbers sampleApi a b <> "".
Proof. simpl. destruct a; discriminate. Qed.

Lemma getApiVars_logs_nothing_iff_witness :
  (forall a b, @pathJoin sampleNumbers sampleApi a b <> "")
  /\ snd (@getApiVars sampleNumbers sampleApi unit sampleEnv) = [].
Proof.
  split; [exact sampleApi_pathJoin_not_empty |].
  apply (@getApiVars_logs_nothing_iff sampleNumbers sampleApi
           sampleApi_pathJoin_not_empty unit sampleEnv).
  repeat split;
    try (eexists; split; [reflexivity | discriminate]).
  exists "https://api.example/claims/".
  split; [reflexivity | split; discriminate].
Defined.

Lemma reponseIsNullish_null_uniqueNumber_witness :
  getProperty (setProperty sampleBody "uniqueNumber" JNull) "uniqueNumber" = Some JNull
  /\ reponseIsNullish (setProperty sampleBody "uniqueNumber" JNull) = true.
Proof.
  split; [reflexivity |].
  exact (@reponseIsNullish_null_uniqueNumber sampleNumbers
           (setProperty sampleBody "uniqueNumber" JNull) eq_refl).
Defined.

Lemma reponseIsNullish_carries_nothing_witness :
  reponseIsNullish sampleNullishBody = true
  /\ forall k v,
       In (k, v) sampleNullishBody ->
       (k = "pendingDetermination" -> v = JArray []).
Proof.
  split; [reflexivity |].
  destruct (@reponseIsNullish_carries_nothing sampleNumbers sampleNullishBody eq_refl)
    as [H | [[n [H _]] | H]].
  - discriminate H.
  - discriminate H.
  - intros k v Hin. exact (proj1 (proj2 (H k v Hin))).
Defined.

Lemma reponseIsNullish_ignores_uniqueNumber_witness :
  jsonRoundTrip (@JString sampleNumbers "67890") <> JNull
  /\ reponseIsNullish (setProperty sampleBody "uniqueNumber" (JString "67890"))
     = reponseIsNullish sampleBody.
Proof.
  assert (H : jsonRoundTrip (@JString sampleNumbers "67890") <> JNull) by discriminate.
  split; [exact H |].
  apply (@reponseIsNullish_ignores_uniqueNumber sampleNumbers sampleBody _ H).
  intros u Hu. injection Hu as <-. discriminate.
Defined.

Lemma reponseIsNullish_recognises_witness :
  (JObject (setProperty sampleNullishBody "uniqueNumber" JNull) = nullishResponse
   \/ JObject (setProperty sampleNullishBody "uniqueNumber" JNull) = nullishResponseTmp1
   \/ JObject (setProperty sampleNullishBody "uniqueNumber" JNull) = nullishResponseTmp2)
  /\ reponseIsNullish
       (setProperty (setProperty sampleNullishBody "uniqueNumber" JNull)
          "uniqueNumber" (JString "67890")) = true.
Proof.
  assert (H : JObject (setProperty sampleNullishBody "uniqueNumber" JNull) = nullishResponse
              \/ JObject (setProperty sampleNullishBody "uniqueNumber" JNull)
                 = nullishResponseTmp1
              \/ JObject (setProperty sampleNullishBody "uniqueNumber" JNull)
                 = nullishResponseTmp2)
    by (left; reflexivity).
  split; [exact H |].
  exact (@reponseIsNullish_recognises sampleNumbers _ (JString "67890") H).
Defined.

Lemma queryApiGateway_returned_data_witness :
  @queryApiGateway sampleNumbers sampleApi sampleEnv "12345" = ([], Ok sampleBody)
  /\ reponseIsNullish sampleBody = false
  /\ getProperty sampleBody "uniqueNumber" = Some (JString "12345").
Proof.
  split; [reflexivity |].
  destruct (@queryApiGateway_returned_data sampleNumbers sampleApi sampleEnv "12345"
              [] sampleBody eq_refl) as [_ [Hn _]].
  split; [exact Hn | reflexivity].
Defined.

Lemma getServerSideProps_shows_requested_claim_witness :
  errorCode
    (props (@getServerSideProps sampleNumbers sampleApi sampleImports plainContent
              samplePage sampleEnv None sampleHeaders None (Ok tt))) = None
  /\ exists (queried : string) (claimData : @JsonObject sampleNumbers),
       fst (@getUniqueNumber sampleNumbers sampleApi (AppError (@ApiError sampleNumbers))
              sampleEnv sampleHeaders) = Some queried
       /\ snd (@queryApiGateway sampleNumbers sampleApi sampleEnv queried) = Ok claimData
       /\ reponseIsNullish claimData = false.
Proof.
  assert (H : errorCode
                (props (@getServerSideProps sampleNumbers sampleApi sampleImports
                          plainContent samplePage sampleEnv None sampleHeaders None
                          (Ok tt))) = None) by reflexivity.
  split; [exact H |].
  destruct (@getServerSideProps_shows_requested_claim sampleNumbers sampleApi
              sampleImports plainContent samplePage sampleEnv None sampleHeaders None
              (Ok tt) H) as [queried [claimData [H1 [_ [H3 [H4 _]]]]]].
  exists queried, claimData. auto.
Defined.
